(** * Enroll-Ease: the Streamlit question-answering script, embedded in Rocq

    The program is [main.py]: a Streamlit script that is re-executed from
    top to bottom on every user interaction.  What survives between two
    executions is [st.session_state], a dictionary; everything else is
    recomputed.  The script itself only composes calls into third-party
    libraries (PDF loader, text splitter, embedding client, FAISS, the Groq
    chat model and the LangChain chain constructors).  Those libraries are
    not part of the repository: they form the [Backend] interface below and
    every definition of the script is parametric in it.  For the text
    splitter there is, besides, a model after the comment in [main.py]
    that says what the splitter does.

    Conventions.
    - A Python string is a [string]; one element of it is one character.
    - The entries the script stores in [st.session_state] are a
      [gmap string value].  The entry that Streamlit itself keeps for the
      text box (widget key "input") is the content of the box: it comes
      with the input of a run and is not an entry of that map.
    - A library call either returns or raises: [result].  Its result is a
      function of its arguments: the files and the services behind the
      libraries are taken not to change while a session lasts.
    - The script runs in a small state/exception monad [script] whose state
      is the session dictionary together with the log of what the run
      showed on screen and which library calls it made.
    - An exception that escapes the script ends the run; what the run wrote
      to the session before stays written. *)

From Stdlib Require Import String Ascii List Arith Lia Bool.
From stdpp Require Import base option strings gmap list fin_maps.
Import ListNotations.
Local Open Scope string_scope.
Local Open Scope list_scope.

(** ** Python values and exceptions *)

Inductive exn : Type :=
| KeyError (key : string)
| AttributeError (name : string)
| TypeError (what : string)
| LibraryError (what : string).

Inductive result (A : Type) : Type :=
| Ok (a : A)
| Raise (e : exn).
Arguments Ok {A} a.
Arguments Raise {A} e.

Definition result_bind {A C : Type} (r : result A) (k : A -> result C) : result C :=
  match r with
  | Ok a => k a
  | Raise e => Raise e
  end.

(** How a run of the script ends early: [st.experimental_rerun()] raises
    Streamlit's rerun exception, anything else is an ordinary exception. *)
Inductive signal : Type :=
| RerunException
| Exception (e : exn).

Inductive outcome (A : Type) : Type :=
| Done (a : A)
| Halt (sg : signal).
Arguments Done {A} a.
Arguments Halt {A} sg.

Definition outcome_of_result {A : Type} (r : result A) : outcome A :=
  match r with
  | Ok a => Done a
  | Raise e => Halt (Exception e)
  end.

(** ** The third-party libraries

    One field per library entry point that [main.py] calls, named after
    it.  Constructors that only record configuration are total; calls that
    read files, validate arguments or talk to a service are fallible. *)

Record Backend : Type := {
  Document : Type;
  Embeddings : Type;
  VectorStore : Type;
  LLM : Type;
  Prompt : Type;
  DocChain : Type;
  Retriever : Type;
  Chain : Type;
  (* objects found in a chain response; printed by an f-string *)
  page_content : Document -> string;
  Document_list_str : list Document -> string;
  (* os.getenv after load_dotenv() *)
  os_getenv : string -> option string;
  (* PyPDFLoader(path).load() *)
  PyPDFLoader_load : string -> result (list Document);
  (* RecursiveCharacterTextSplitter(chunk_size, chunk_overlap).split_documents(docs) *)
  RecursiveCharacterTextSplitter_split_documents :
    nat -> nat -> list Document -> result (list Document);
  (* OllamaEmbeddings() *)
  OllamaEmbeddings : Embeddings;
  (* FAISS.from_documents(documents, embeddings) *)
  FAISS_from_documents : list Document -> Embeddings -> result VectorStore;
  (* ChatGroq(groq_api_key, model_name) *)
  ChatGroq : option string -> string -> result LLM;
  (* ChatPromptTemplate.from_template(text) *)
  ChatPromptTemplate_from_template : string -> result Prompt;
  (* create_stuff_documents_chain(llm, prompt) *)
  create_stuff_documents_chain : LLM -> Prompt -> result DocChain;
  (* db.as_retriever() *)
  as_retriever : VectorStore -> Retriever;
  (* create_retrieval_chain(retriever, doc_chain) *)
  create_retrieval_chain : Retriever -> DocChain -> Chain;
  (* chain.invoke(dict), the dict values being strings or document lists *)
  chain_invoke : Chain -> gmap string (string + list Document)
                 -> result (gmap string (string + list Document));
}.

(** ** String constants of the script *)

Definition nl : string := String "010"%char EmptyString.
Definition dquote : string := String "034"%char EmptyString.

(** The argument of [ChatPromptTemplate.from_template], lines 48-56. *)
Definition fallback_sentence : string :=
  "I am sorry you might have to contact the college for more info on this XXXXX".

Definition prompt_template : string :=
  nl +:+
  "    You are an assistant who provides answers to the questions of the user. " +:+ nl +:+
  "    Get the information from the pdf and provide correct and precise answers. " +:+ nl +:+
  "    If you don't know the answer then say " +:+ dquote +:+ fallback_sentence +:+ dquote +:+ nl +:+
  "    <context>" +:+ nl +:+
  "    {context}" +:+ nl +:+
  "    </context>" +:+ nl +:+
  "    Question: {input}" +:+ nl +:+
  "    ".

(** The style sheet passed to [st.markdown], lines 87-128. *)
Definition custom_styling : string :=
"
        <style>
            .sidebar .sidebar-content {
                padding: 20px;
                background-color: #f8f9fa;
            }
            .sidebar .sidebar-content h3 {
                margin-top: 0;
            }
            .chat-box {
                margin-bottom: 10px;
                padding: 10px;
                border-radius: 5px;
                background-color: #f1f1f1;
            }
            .user-message {
                font-weight: bold;
                color: #000000;
                margin-bottom: 5px
            }
            .bot-message {
                margin-top: 5px;
                color: #0a0a0a;
            }
            .button-container button {
                display: block;
                width: 100%;
                margin-bottom: 10px;
                padding: 10px;
                text-align: center;
                border: none;
                background-color: #007bff;
                color: white;
                font-size: 16px;
                cursor: pointer;
                border-radius: 5px;
            }
            .button-container button:hover {
                background-color: #0056b3;
            }
        </style>
    ".

(** The text of a template in front of its context block. *)
Definition instructions_of (template : string) : string :=
  match index 0 "<context>" template with
  | Some n => substring 0 n template
  | None => template
  end.

(** [pdf_paths], lines 134-140: a dict literal, kept in source order. *)
Definition pdf_paths_items : list (string * string) :=
  [ ("college_info", "about_college.pdf");
    ("seatsmatrix", "seatsmatrix.pdf");
    ("admission_process", "admissionprocess.pdf");
    ("Cutoff", "cuttoffs.pdf");
    ("fees", "feesstructure.pdf") ].

Definition pdf_paths : gmap string string := list_to_map pdf_paths_items.

(** The sidebar buttons in the order the script tests them, each with the
    key it looks up in [pdf_paths] (lines 150-178). *)
Definition sidebar_buttons : list (string * string) :=
  [ ("About College", "college_info");
    ("Admission Process", "admission_process");
    ("Cut-off", "Cutoff");
    ("Seat Allotment", "seatsmatrix");
    ("Fees Structure", "fees") ].

(** ** What the user did to trigger a run

    Streamlit re-executes the script once per interaction.  A button call
    returns [True] only in the run that its click triggered, so at most one
    button is pressed in a run; the text box returns its current content.
    The content of the text box is widget state, which the Streamlit
    runtime keeps under the widget key and hands to the run: it is part of
    the input, not of the dictionary the script writes to. *)
Record input : Type := {
  pressed : option string;
  typed : string;
}.

Definition button_value (i : input) (label : string) : bool :=
  bool_decide (pressed i = Some label).

(** Python truthiness of a string. *)
Definition truthy (s : string) : bool :=
  match s with
  | EmptyString => false
  | String _ _ => true
  end.

Section Script.
Context (B : Backend).

(** A value found in a chain response. *)
Abbreviation pyobj := (string + list (Document B))%type.

(** [f"{x}"] on such a value. *)
Definition format_obj (x : pyobj) : string :=
  match x with
  | inl s => s
  | inr ds => Document_list_str B ds
  end.

(** One entry of the chat history: [{"question": ..., "answer": ...}]. *)
Record chat : Type := {
  question : string;
  answer : pyobj;
}.

(** What the script stores in [st.session_state]. *)
Inductive value : Type :=
| VNone
| VStr (s : string)
| VDb (db : VectorStore B)
| VHistory (h : list chat).

(** *** The log of a run *)

Inductive widget : Type :=
| st_title (body : string)
| st_markdown (body : string)
| st_sidebar_title (body : string)
| st_sidebar_markdown (body : string)
| st_sidebar_button (label : string)
| st_text_input (label key placeholder : string)
| st_button (label : string)
| st_warning (body : string).

Inductive call : Type :=
| call_PyPDFLoader_load (path : string)
| call_split_documents (chunk_size chunk_overlap : nat) (docs : list (Document B))
| call_FAISS_from_documents (documents : list (Document B))
| call_ChatGroq (groq_api_key : option string) (model_name : string)
| call_from_template (text : string)
| call_create_stuff_documents_chain (llm : LLM B) (prompt : Prompt B)
| call_as_retriever (db : VectorStore B)
| call_create_retrieval_chain (retriever : Retriever B) (doc_chain : DocChain B)
| call_invoke (chain : Chain B) (arg : gmap string pyobj).

Inductive event : Type :=
| Received (i : input)
| Shown (w : widget)
| Called (c : call).

(** *** The script monad *)

Record state : Type := {
  session : gmap string value;
  log : list event;
}.

Definition script (A : Type) : Type := state -> outcome A * state.

Definition ret {A : Type} (a : A) : script A := fun st => (Done a, st).

Definition bind {A C : Type} (m : script A) (k : A -> script C) : script C :=
  fun st =>
    match m st with
    | (Done a, st') => k a st'
    | (Halt sg, st') => (Halt sg, st')
    end.

Definition raise {A : Type} (e : exn) : script A :=
  fun st => (Halt (Exception e), st).


Declare Scope script_scope.
Delimit Scope script_scope with script.
Bind Scope script_scope with script.
Notation "'let*' x ':=' m 'in' k" := (bind m (fun x => k))
  (at level 10, x name, m at level 100, k at level 200) : script_scope.
Notation "m ;; k" := (bind m (fun _ => k))
  (at level 100, k at level 200, right associativity) : script_scope.
Local Open Scope script_scope.

(** A library call: logged, then its result or its exception. *)
Definition emit (e : event) : script unit :=
  fun st => (Done tt, {| session := session st; log := log st ++ [e] |}).

Definition lift {A : Type} (r : result A) : script A :=
  match r with
  | Ok a => ret a
  | Raise e => raise e
  end.

Definition library {A : Type} (c : call) (r : result A) : script A :=
  emit (Called c) ;; lift r.

Definition show (w : widget) : script unit := emit (Shown w).

(** *** [st.session_state] *)

(** ['key' in st.session_state] / ['key' not in st.session_state] *)
Definition session_contains (key : string) : script bool :=
  fun st => (Done (match session st !! key with Some _ => true | None => false end), st).

(** [st.session_state.key] *)
Definition session_getattr (key : string) : script value :=
  fun st =>
    match session st !! key with
    | Some v => (Done v, st)
    | None => (Halt (Exception (AttributeError key)), st)
    end.

(** [st.session_state.key = v] *)
Definition session_setattr (key : string) (v : value) : script unit :=
  fun st => (Done tt, {| session := <[key := v]> (session st); log := log st |}).

(** [st.session_state.pop(key, None)] *)
Definition session_pop (key : string) : script unit :=
  fun st => (Done tt, {| session := delete key (session st); log := log st |}).

(** [st.experimental_rerun()]: stops the run and asks for another one. *)
Definition experimental_rerun : script unit :=
  fun st => (Halt RerunException, st).

(** [d[key]] on a dict with string values *)
Definition dict_getitem (d : gmap string string) (key : string) : script string :=
  match d !! key with
  | Some v => ret v
  | None => raise (KeyError key)
  end.

(** *** Widgets that return a value *)

Definition sidebar_button (i : input) (label : string) : script bool :=
  show (st_sidebar_button label) ;; ret (button_value i label).

Definition button (i : input) (label : string) : script bool :=
  show (st_button label) ;; ret (button_value i label).

(** [st.text_input]: the box is put on the page and its content is
    returned.  Under its [key] Streamlit also keeps the content in
    [st.session_state]; that entry is written by the runtime from what the
    user typed, the script never reads or tests it, and here it is the
    field [typed] of the input, not an entry of [session]: [session] holds
    the entries the script itself stores. *)
Definition text_input (i : input) (label key placeholder : string) : script string :=
  show (st_text_input label key placeholder) ;; ret (typed i).

(** *** The functions of [main.py] *)

(** line 16 *)
Definition groq_api_key : option string := os_getenv B "GROQ_API_KEY".

(** lines 19-22.  The script calls it with the path string it has just
    stored (lines 150-178), and that is the case embedded from the source.
    For an argument that is not a string the loader of the library is
    still called in [main.py] and it is the library that raises; the
    backend takes path strings only, so this case ends the run with a
    [TypeError] and records no call.  No run of [run_streamlit] takes it. *)
Definition load_pdf (pdf_path : value) : script (list (Document B)) :=
  match pdf_path with
  | VStr path =>
      let* docs := library (call_PyPDFLoader_load path) (PyPDFLoader_load B path) in
      ret docs
  | _ => raise (TypeError "PyPDFLoader: file path is not a str")
  end.

(** lines 26-29 *)
Definition split_documents (docs : list (Document B)) : script (list (Document B)) :=
  let* documents :=
    library (call_split_documents 1000 200 docs)
            (RecursiveCharacterTextSplitter_split_documents B 1000 200 docs) in
  ret documents.

(** lines 34-37 *)
Definition initialize_embeddings (documents : list (Document B)) : script (VectorStore B) :=
  let embeddings := OllamaEmbeddings B in
  let* db :=
    library (call_FAISS_from_documents documents)
            (FAISS_from_documents B documents embeddings) in
  ret db.

(** lines 41-43 *)
Definition initialize_llm : script (LLM B) :=
  let* llm :=
    library (call_ChatGroq groq_api_key "mixtral-8x7b-32768")
            (ChatGroq B groq_api_key "mixtral-8x7b-32768") in
  ret llm.

(** lines 47-57 *)
Definition create_prompt : script (Prompt B) :=
  let* prompt :=
    library (call_from_template prompt_template)
            (ChatPromptTemplate_from_template B prompt_template) in
  ret prompt.

(** lines 61-65 *)
Definition create_chains (llm : LLM B) (prompt : Prompt B) (db : value) : script (Chain B) :=
  let* doc_chain :=
    library (call_create_stuff_documents_chain llm prompt)
            (create_stuff_documents_chain B llm prompt) in
  match db with
  | VDb store =>
      let* retriever := library (call_as_retriever store) (Ok (as_retriever B store)) in
      let* retrieval_chain :=
        library (call_create_retrieval_chain retriever doc_chain)
                (Ok (create_retrieval_chain B retriever doc_chain)) in
      ret retrieval_chain
  | _ => raise (AttributeError "as_retriever")
  end.

(** lines 69-71 *)
Definition process_question (retrieval_chain : Chain B) (question : string) : script pyobj :=
  let arg : gmap string pyobj := {[ "input" := inl question ]} in
  let* response := library (call_invoke retrieval_chain arg) (chain_invoke B retrieval_chain arg) in
  match response !! "answer" with
  | Some a => ret a
  | None => raise (KeyError "answer")
  end.

(** lines 75-79 *)
Definition preload_data (pdf_path : value) : script (VectorStore B) :=
  let* docs := load_pdf pdf_path in
  let* documents := split_documents docs in
  let* db := initialize_embeddings documents in
  ret db.

(** One sidebar button with its block; the five blocks of lines 150-178
    differ only in the label and in the key of [pdf_paths]. *)
Definition select_document (i : input) (label key : string) : script unit :=
  let* clicked := sidebar_button i label in
  if clicked then
    let* path := dict_getitem pdf_paths key in
    session_setattr "pdf_path" (VStr path) ;;
    session_pop "db" ;;
    let* selected := session_getattr "pdf_path" in
    let* db := preload_data selected in
    session_setattr "db" (VDb db) ;;
    experimental_rerun
  else ret tt.

(** lines 188-190: the loop over the chat history *)
Definition user_message (c : chat) : string :=
  "<div class='chat-box'><span class='user-message'>" +:+ question c +:+ "</span></div>".

Definition bot_message (c : chat) : string :=
  "<div class='chat-box'><span class='bot-message'><strong>Bot:</strong> "
    +:+ format_obj (answer c) +:+ "</span></div>".

Fixpoint render_history (h : list chat) : script unit :=
  match h with
  | [] => ret tt
  | c :: rest =>
      show (st_markdown (user_message c)) ;;
      show (st_markdown (bot_message c)) ;;
      render_history rest
  end.

(** A list stored in the session: iterating or appending needs a list. *)
Definition as_history (v : value) : script (list chat) :=
  match v with
  | VHistory h => ret h
  | _ => raise (TypeError "chat_history is not a list")
  end.

Definition is_not_None (v : value) : bool :=
  match v with
  | VNone => false
  | _ => true
  end.

(** lines 195-204 *)
Definition send_flow (i : input) (question : string) : script unit :=
  let* send := button i "Send" in
  if send && truthy question then
    let* has_db := session_contains "db" in
    if has_db then
      let* llm := initialize_llm in
      let* prompt := create_prompt in
      let* db := session_getattr "db" in
      let* retrieval_chain := create_chains llm prompt db in
      let* answer := process_question retrieval_chain question in
      let* stored := session_getattr "chat_history" in
      let* history := as_history stored in
      session_setattr "chat_history"
        (VHistory (history ++ [ {| question := question; answer := answer |} ])) ;;
      experimental_rerun
    else show (st_warning "Please select a category first.")
  else ret tt.

(** lines 183-204 *)
Definition chat_panel (i : input) : script unit :=
  let* has_history := session_contains "chat_history" in
  (if negb has_history then session_setattr "chat_history" (VHistory []) else ret tt) ;;
  let* stored := session_getattr "chat_history" in
  let* history := as_history stored in
  render_history history ;;
  let* question :=
    text_input i "Enter your question:" "input" "Type your question here..." in
  send_flow i question.

(** lines 83-204 *)
Definition run_streamlit (i : input) : script unit :=
  show (st_title "ENROLL EASE") ;;
  show (st_markdown custom_styling) ;;
  show (st_sidebar_title "Ask Queries Regarding:") ;;
  let* has_path := session_contains "pdf_path" in
  (if negb has_path then session_setattr "pdf_path" VNone else ret tt) ;;
  show (st_sidebar_markdown "<div class='button-container'>") ;;
  select_document i "About College" "college_info" ;;
  select_document i "Admission Process" "admission_process" ;;
  select_document i "Cut-off" "Cutoff" ;;
  select_document i "Seat Allotment" "seatsmatrix" ;;
  select_document i "Fees Structure" "fees" ;;
  show (st_sidebar_markdown "</div>") ;;
  let* selected := session_getattr "pdf_path" in
  if is_not_None selected then chat_panel i else ret tt.

(** ** The Streamlit runtime around the script

    An interaction is logged, the script runs, and each [RerunException]
    makes it run once more with every button released.  The text box keeps
    its content. *)

Definition released (i : input) : input :=
  {| pressed := None; typed := typed i |}.

Fixpoint script_runs (fuel : nat) (i : input) (st : state) : option state :=
  match fuel with
  | O => None
  | S fuel' =>
      match run_streamlit i st with
      | (Halt RerunException, st') => script_runs fuel' (released i) st'
      | (_, st') => Some st'
      end
  end.

Definition interact (fuel : nat) (i : input) (st : state) : option state :=
  script_runs fuel i {| session := session st; log := log st ++ [Received i] |}.

(** A button can only be clicked once some run has put it on screen. *)
Definition shows_button (label : string) (e : event) : bool :=
  match e with
  | Shown (st_button l) => bool_decide (l = label)
  | Shown (st_sidebar_button l) => bool_decide (l = label)
  | _ => false
  end.

Definition valid_input (st : state) (i : input) : bool :=
  match pressed i with
  | None => true
  | Some label => existsb (shows_button label) (log st)
  end.

(** A new browser session starts with an empty dictionary. *)
Definition initial_state : state := {| session := ∅; log := [] |}.

(** A whole session: the interactions in order, [None] when one of them
    clicks a button that was never shown or the fuel does not suffice. *)
Fixpoint play (fuel : nat) (inputs : list input) (st : state) : option state :=
  match inputs with
  | [] => Some st
  | i :: rest =>
      if valid_input st i then
        match interact fuel i st with
        | Some st' => play fuel rest st'
        | None => None
        end
      else None
  end.

Inductive reachable : state -> Prop :=
| reachable_initial : reachable initial_state
| reachable_interact (st st' : state) (i : input) (fuel : nat) :
    reachable st ->
    valid_input st i = true ->
    interact fuel i st = Some st' ->
    reachable st'.

(** ** Pure views of a run

    The functions below say, without the monad, what a block of the script
    returns and which events it logs.  Each is proved equal to the block it
    describes ([preload_data_run], [select_document_clicked], ...) before
    it is used in a statement. *)

Definition make_state (s : gmap string value) (l : list event) : state :=
  {| session := s; log := l |}.

(** What [preload_data path] returns. *)
Definition pipeline (path : string) : result (VectorStore B) :=
  result_bind (PyPDFLoader_load B path) (fun docs =>
  result_bind (RecursiveCharacterTextSplitter_split_documents B 1000 200 docs) (fun documents =>
  FAISS_from_documents B documents (OllamaEmbeddings B))).

(** The library calls [preload_data path] makes, in order. *)
Definition pipeline_calls (path : string) : list event :=
  Called (call_PyPDFLoader_load path) ::
  match PyPDFLoader_load B path with
  | Ok docs =>
      Called (call_split_documents 1000 200 docs) ::
      match RecursiveCharacterTextSplitter_split_documents B 1000 200 docs with
      | Ok documents => [Called (call_FAISS_from_documents documents)]
      | Raise _ => []
      end
  | Raise _ => []
  end.

(** The chain lines 197-199 build over a stored index. *)
Definition built_chain (store : VectorStore B) (doc_chain : DocChain B) : Chain B :=
  create_retrieval_chain B (as_retriever B store) doc_chain.

Definition question_arg (q : string) : gmap string pyobj := {[ "input" := inl q ]}.

(** What lines 197-200 compute for the stored value [db] and question [q]. *)
Definition answering (db : value) (q : string) : result pyobj :=
  result_bind (ChatGroq B groq_api_key "mixtral-8x7b-32768") (fun llm =>
  result_bind (ChatPromptTemplate_from_template B prompt_template) (fun prompt =>
  result_bind (create_stuff_documents_chain B llm prompt) (fun doc_chain =>
  match db with
  | VDb store =>
      result_bind (chain_invoke B (built_chain store doc_chain) (question_arg q)) (fun response =>
      match response !! "answer" with
      | Some a => Ok a
      | None => Raise (KeyError "answer")
      end)
  | _ => Raise (AttributeError "as_retriever")
  end))).

(** The library calls lines 197-200 make, in order. *)
Definition answering_calls (db : value) (q : string) : list event :=
  Called (call_ChatGroq groq_api_key "mixtral-8x7b-32768") ::
  match ChatGroq B groq_api_key "mixtral-8x7b-32768" with
  | Ok llm =>
      Called (call_from_template prompt_template) ::
      match ChatPromptTemplate_from_template B prompt_template with
      | Ok prompt =>
          Called (call_create_stuff_documents_chain llm prompt) ::
          match create_stuff_documents_chain B llm prompt, db with
          | Ok doc_chain, VDb store =>
              [ Called (call_as_retriever store);
                Called (call_create_retrieval_chain (as_retriever B store) doc_chain);
                Called (call_invoke (built_chain store doc_chain) (question_arg q)) ]
          | _, _ => []
          end
      | Raise _ => []
      end
  | Raise _ => []
  end.

(** What every run shows first (lines 84-149). *)
Definition page_top : list event :=
  [ Shown (st_title "ENROLL EASE");
    Shown (st_markdown custom_styling);
    Shown (st_sidebar_title "Ask Queries Regarding:");
    Shown (st_sidebar_markdown "<div class='button-container'>") ].

(** The sidebar buttons a run reaches when [label] is the pressed one. *)
Fixpoint sidebar_until (label : string) (buttons : list (string * string)) : list event :=
  match buttons with
  | [] => []
  | b :: rest =>
      Shown (st_sidebar_button (fst b)) ::
      (if bool_decide (fst b = label) then [] else sidebar_until label rest)
  end.

(** The whole sidebar, shown by a run in which no sidebar button is pressed. *)
Definition sidebar_all : list event :=
  map (fun b => Shown (st_sidebar_button (fst b))) sidebar_buttons
    ++ [Shown (st_sidebar_markdown "</div>")].

Definition history_events (h : list chat) : list event :=
  flat_map (fun c => [Shown (st_markdown (user_message c)); Shown (st_markdown (bot_message c))]) h.

Definition question_box : event :=
  Shown (st_text_input "Enter your question:" "input" "Type your question here...").

Definition send_button : event := Shown (st_button "Send").

Definition category_warning : event := Shown (st_warning "Please select a category first.").

(** [if key not in st.session_state: st.session_state.key = v] *)
Definition with_default (key : string) (v : value) (s : gmap string value) : gmap string value :=
  match s !! key with
  | Some _ => s
  | None => <[key := v]> s
  end.

(** The session after a sidebar block ran for [path] (lines 151-153). *)
Definition select_session (path : string) (s : gmap string value) : gmap string value :=
  match pipeline path with
  | Ok db => <["db" := VDb db]> (delete "db" (<["pdf_path" := VStr path]> s))
  | Raise _ => delete "db" (<["pdf_path" := VStr path]> s)
  end.

(** ** Notions used in the statements *)

(** The five files of [pdf_paths]. *)
Definition selectable_paths : list string := map snd pdf_paths_items.

(** The key a sidebar label selects, if it is one. *)
Definition sidebar_key (label : string) : option string :=
  snd <$> List.find (fun b => bool_decide (fst b = label)) sidebar_buttons.

(** An interaction that clicks one of the five document buttons. *)
Definition is_selection (i : input) : bool :=
  match pressed i with
  | Some label => bool_decide (is_Some (sidebar_key label))
  | None => false
  end.

Definition history_of (s : gmap string value) : list chat :=
  match s !! "chat_history" with
  | Some (VHistory h) => h
  | _ => []
  end.

Definition is_call (e : event) : bool :=
  match e with
  | Called _ => true
  | _ => false
  end.

(** The events of lines 193-204: the question box, the Send button, the
    warning, and the calls that build and invoke the chain. *)
Definition in_question_flow (e : event) : bool :=
  match e with
  | Shown (st_text_input _ _ _) => true
  | Shown (st_button _) => true
  | Shown (st_warning _) => true
  | Called (call_ChatGroq _ _) => true
  | Called (call_from_template _) => true
  | Called (call_create_stuff_documents_chain _ _) => true
  | Called (call_as_retriever _) => true
  | Called (call_create_retrieval_chain _ _) => true
  | Called (call_invoke _ _) => true
  | _ => false
  end.

Definition is_selection_event (e : event) : bool :=
  match e with
  | Received i => is_selection i
  | _ => false
  end.

(** The stored history is a list or is not there yet. *)
Definition history_typed (s : gmap string value) : Prop :=
  s !! "chat_history" = None \/ exists h, s !! "chat_history" = Some (VHistory h).

(** What a run shows in full when a document is selected and no sidebar
    button is pressed, up to and including the Send button. *)
Definition chat_page (s : gmap string value) : list event :=
  page_top ++ sidebar_all ++ history_events (history_of s) ++ [question_box; send_button].

(** The stored path is one the script can have written. *)
Definition path_selected (s : gmap string value) : Prop :=
  exists path, path ∈ selectable_paths /\ s !! "pdf_path" = Some (VStr path).

Definition path_allowed (s : gmap string value) : Prop :=
  s !! "pdf_path" = None \/ s !! "pdf_path" = Some VNone \/ path_selected s.

Definition index_typed (s : gmap string value) : Prop :=
  s !! "db" = None \/ exists db, s !! "db" = Some (VDb db).

(** Some earlier interaction clicked a document button. *)
Definition selection_seen (l : list event) : bool := existsb is_selection_event l.

(** Some earlier run put the Send button on screen. *)
Definition send_shown (l : list event) : bool := existsb (shows_button "Send") l.

(** Every event of the question flow comes after a document selection. *)
Definition question_flow_follows_selection (l : list event) : Prop :=
  forall l1 e l2, l = l1 ++ e :: l2 -> in_question_flow e = true -> selection_seen l1 = true.

(** What holds of the session and the log between any two runs. *)
Record consistent (st : state) : Prop := {
  consistent_path : path_allowed (session st);
  consistent_history : history_typed (session st);
  consistent_index : index_typed (session st);
  consistent_index_path : is_Some (session st !! "db") -> path_selected (session st);
  consistent_selected : path_selected (session st) -> selection_seen (log st) = true;
  consistent_send :
    send_shown (log st) = true ->
    path_selected (session st) /\ is_Some (session st !! "chat_history");
  consistent_flow : question_flow_follows_selection (log st);
}.

(** Whether a run with input [i] reaches line 196 with a true condition. *)
Definition sending (i : input) : bool := button_value i "Send" && truthy (typed i).

(** The pair an interaction appends to the history, if any. *)
Definition answered (s : gmap string value) (i : input) : list chat :=
  if is_selection i then []
  else if sending i then
    match s !! "db" with
    | Some db =>
        match answering db (typed i) with
        | Ok a => [ {| question := typed i; answer := a |} ]
        | Raise _ => []
        end
    | None => []
    end
  else [].

(** ** The text splitter

    [main.py] only passes [chunk_size] and [chunk_overlap] to
    [RecursiveCharacterTextSplitter]; the splitter is code of the library
    and is not among the sources.  The comment under [split_documents]
    (lines 30-31) says what the script expects of it: it "splits the
    document content into chunks of 1000 characters with 200 characters
    overlapping". *)

(** Modelled from the spec: the windows that the library's text splitter,
    absent from the sources, cuts a text into.  Each window is [size]
    characters long and starts [step] characters after the one in front of
    it; the last one holds what is left of the text. *)
Fixpoint chunk_windows (fuel size step start : nat) (text : string) : list string :=
  match fuel with
  | O => []
  | S fuel' =>
      if Nat.leb (String.length text) (start + size)
      then [substring start (String.length text - start) text]
      else substring start size text :: chunk_windows fuel' size step (start + step) text
  end.

(** Modelled from the spec: the library's splitter on the text of one
    document, absent from the sources: chunks of [size] characters, each
    sharing its first [overlap] characters with the end of the chunk in
    front of it.  An empty text gives no chunk. *)
Definition modelled_split_text (size overlap : nat) (text : string) : list string :=
  match text with
  | EmptyString => []
  | _ => chunk_windows (String.length text) size (size - overlap) 0 text
  end.

(** Modelled from the spec: [RecursiveCharacterTextSplitter.split_documents]
    of the library, absent from the sources, on the texts of a list of
    documents: every document is cut on its own, and the chunks come in
    the order of the documents.  An overlap that is not smaller than the
    chunk size leaves no room for a next chunk and is refused. *)
Definition modelled_split_documents (size overlap : nat) (texts : list string)
  : result (list string) :=
  if Nat.ltb overlap size
  then Ok (flat_map (modelled_split_text size overlap) texts)
  else Raise (LibraryError "Got a larger chunk overlap than chunk size").




End Script.

(** ** A small executable backend

    Documents are their text, the index is the list of chunks, the
    retriever returns the first four chunks and the model answers with the
    first retrieved chunk.  Two of the five files exist.  It is used to run
    the script on concrete sessions. *)
Module Toy.

Definition files : list (string * list string) :=
  [ ("about_college.pdf", ["The college was founded in 1946."; "It has nine departments."]);
    ("feesstructure.pdf", ["The tuition fee is 90000 per year."]) ].

Definition load (path : string) : result (list string) :=
  match List.find (fun f => bool_decide (fst f = path)) files with
  | Some f => Ok (snd f)
  | None => Raise (LibraryError "File path is not a valid file or url")
  end.

(** The splitter of the toy backend is the modelled one; its documents
    are their text. *)
Definition split (size overlap : nat) (docs : list string) : result (list string) :=
  modelled_split_documents size overlap docs.


Definition index (documents : list string) (_ : unit) : result (list string) :=
  match documents with
  | [] => Raise (LibraryError "list index out of range")
  | _ => Ok documents
  end.

Definition chat_model (key : option string) (model_name : string) : result string :=
  match key with
  | Some _ => Ok model_name
  | None => Raise (LibraryError "Did not find groq_api_key")
  end.

Definition generate (retrieved : list string) : string :=
  match retrieved with
  | c :: _ => c
  | [] => fallback_sentence
  end.

Definition invoke (chain : list string * string) (arg : gmap string (string + list string))
  : result (gmap string (string + list string)) :=
  match arg !! "input" with
  | Some (inl q) =>
      let context := take 4 (fst chain) in
      Ok (<["answer" := inl (generate context)]>
            (<["context" := inr context]> {[ "input" := inl q ]}))
  | _ => Raise (KeyError "input")
  end.

Definition backend : Backend := {|
  Document := string;
  Embeddings := unit;
  VectorStore := list string;
  LLM := string;
  Prompt := string;
  DocChain := string;
  Retriever := list string;
  Chain := list string * string;
  page_content := fun d => d;
  Document_list_str := fun ds => String.concat ", " ds;
  os_getenv := fun name => if bool_decide (name = "GROQ_API_KEY") then Some "gsk" else None;
  PyPDFLoader_load := load;
  RecursiveCharacterTextSplitter_split_documents := split;
  OllamaEmbeddings := tt;
  FAISS_from_documents := index;
  ChatGroq := chat_model;
  ChatPromptTemplate_from_template := fun text => Ok text;
  create_stuff_documents_chain := fun _ prompt => Ok prompt;
  as_retriever := fun db => db;
  create_retrieval_chain := fun retriever doc_chain => (retriever, doc_chain);
  chain_invoke := invoke;
|}.

Definition click (label : string) (text : string) : input :=
  {| pressed := Some label; typed := text |}.

Definition idle (text : string) : input :=
  {| pressed := None; typed := text |}.

(** The state after a list of interactions in a fresh browser session. *)
Definition after (inputs : list input) : state backend :=
  default (initial_state backend) (play backend 2 inputs (initial_state backend)).

End Toy.

(** ** Further notions about sessions and exceptions *)

Section Notions.
Context (B : Backend).

Definition is_warning (e : event B) : bool :=
  match e with
  | Shown _ (st_warning _) => true
  | _ => false
  end.

(** An exception that one of the library calls of the script raised. *)
Definition raised_by_library (e : exn) : Prop :=
  (exists path, PyPDFLoader_load B path = Raise e)
  \/ (exists docs, RecursiveCharacterTextSplitter_split_documents B 1000 200 docs = Raise e)
  \/ (exists documents, FAISS_from_documents B documents (OllamaEmbeddings B) = Raise e)
  \/ ChatGroq B (os_getenv B "GROQ_API_KEY") "mixtral-8x7b-32768" = Raise e
  \/ ChatPromptTemplate_from_template B prompt_template = Raise e
  \/ (exists llm prompt, create_stuff_documents_chain B llm prompt = Raise e)
  \/ (exists chain arg, chain_invoke B chain arg = Raise e).

(** Each of the three keys the script writes holds the kind of value the
    script stores in it. *)
Definition values_typed (s : gmap string (value B)) : Prop :=
  (forall v, s !! "pdf_path" = Some v -> v = VNone B \/ exists path, v = VStr B path)
  /\ (forall v, s !! "db" = Some v -> exists store, v = VDb B store)
  /\ (forall v, s !! "chat_history" = Some v -> exists h, v = VHistory B h).

(** The stored index is the one the pipeline builds from the stored path. *)
Definition index_matches_path (s : gmap string (value B)) : Prop :=
  forall v, s !! "db" = Some v ->
    exists path docs chunks store,
      s !! "pdf_path" = Some (VStr B path)
      /\ PyPDFLoader_load B path = Ok docs
      /\ RecursiveCharacterTextSplitter_split_documents B 1000 200 docs = Ok chunks
      /\ FAISS_from_documents B chunks (OllamaEmbeddings B) = Ok store
      /\ v = VDb B store.

(** The state a script run starts from when interaction [i] arrives. *)
Definition arrival (i : input) (st : state B) : state B :=
  make_state B (session B st) (log B st ++ [Received B i]).

End Notions.

(** ** Variants of the toy backend with a failing part *)

Module ToyVariants.

(** No API key in the environment: the chat model cannot be set up. *)
Definition keyless : Backend := {|
  Document := string;
  Embeddings := unit;
  VectorStore := list string;
  LLM := string;
  Prompt := string;
  DocChain := string;
  Retriever := list string;
  Chain := list string * string;
  page_content := fun d => d;
  Document_list_str := fun ds => String.concat ", " ds;
  os_getenv := fun _ => None;
  PyPDFLoader_load := Toy.load;
  RecursiveCharacterTextSplitter_split_documents := Toy.split;
  OllamaEmbeddings := tt;
  FAISS_from_documents := Toy.index;
  ChatGroq := Toy.chat_model;
  ChatPromptTemplate_from_template := fun text => Ok text;
  create_stuff_documents_chain := fun _ prompt => Ok prompt;
  as_retriever := fun db => db;
  create_retrieval_chain := fun retriever doc_chain => (retriever, doc_chain);
  chain_invoke := Toy.invoke;
|}.

(** A chain whose response has the input and the context but no answer. *)
Definition invoke_without_answer (chain : list string * string)
    (arg : gmap string (string + list string))
  : result (gmap string (string + list string)) :=
  match arg !! "input" with
  | Some (inl q) => Ok (<["context" := inr (take 4 (fst chain))]> {[ "input" := inl q ]})
  | _ => Raise (KeyError "input")
  end.

Definition mute : Backend := {|
  Document := string;
  Embeddings := unit;
  VectorStore := list string;
  LLM := string;
  Prompt := string;
  DocChain := string;
  Retriever := list string;
  Chain := list string * string;
  page_content := fun d => d;
  Document_list_str := fun ds => String.concat ", " ds;
  os_getenv := fun name => if bool_decide (name = "GROQ_API_KEY") then Some "gsk" else None;
  PyPDFLoader_load := Toy.load;
  RecursiveCharacterTextSplitter_split_documents := Toy.split;
  OllamaEmbeddings := tt;
  FAISS_from_documents := Toy.index;
  ChatGroq := Toy.chat_model;
  ChatPromptTemplate_from_template := fun text => Ok text;
  create_stuff_documents_chain := fun _ prompt => Ok prompt;
  as_retriever := fun db => db;
  create_retrieval_chain := fun retriever doc_chain => (retriever, doc_chain);
  chain_invoke := invoke_without_answer;
|}.

(** Every file loads, but has no page: there is nothing to index. *)
Definition blank : Backend := {|
  Document := string;
  Embeddings := unit;
  VectorStore := list string;
  LLM := string;
  Prompt := string;
  DocChain := string;
  Retriever := list string;
  Chain := list string * string;
  page_content := fun d => d;
  Document_list_str := fun ds => String.concat ", " ds;
  os_getenv := fun name => if bool_decide (name = "GROQ_API_KEY") then Some "gsk" else None;
  PyPDFLoader_load := fun _ => Ok [];
  RecursiveCharacterTextSplitter_split_documents := Toy.split;
  OllamaEmbeddings := tt;
  FAISS_from_documents := Toy.index;
  ChatGroq := Toy.chat_model;
  ChatPromptTemplate_from_template := fun text => Ok text;
  create_stuff_documents_chain := fun _ prompt => Ok prompt;
  as_retriever := fun db => db;
  create_retrieval_chain := fun retriever doc_chain => (retriever, doc_chain);
  chain_invoke := Toy.invoke;
|}.

(** The hosted model cannot be reached: every invocation of a chain fails. *)
Definition offline : Backend := {|
  Document := string;
  Embeddings := unit;
  VectorStore := list string;
  LLM := string;
  Prompt := string;
  DocChain := string;
  Retriever := list string;
  Chain := list string * string;
  page_content := fun d => d;
  Document_list_str := fun ds => String.concat ", " ds;
  os_getenv := fun name => if bool_decide (name = "GROQ_API_KEY") then Some "gsk" else None;
  PyPDFLoader_load := Toy.load;
  RecursiveCharacterTextSplitter_split_documents := Toy.split;
  OllamaEmbeddings := tt;
  FAISS_from_documents := Toy.index;
  ChatGroq := Toy.chat_model;
  ChatPromptTemplate_from_template := fun text => Ok text;
  create_stuff_documents_chain := fun _ prompt => Ok prompt;
  as_retriever := fun db => db;
  create_retrieval_chain := fun retriever doc_chain => (retriever, doc_chain);
  chain_invoke := fun _ _ => Raise (LibraryError "Connection error.");
|}.

(** The state after a list of interactions in a fresh session of [b]. *)
Definition after (b : Backend) (inputs : list input) : state b :=
  default (initial_state b) (play b 2 inputs (initial_state b)).

End ToyVariants.

(** * Properties *)

(** ** The modelled splitter keeps the bounds *)





Section Runs.
Context (B : Backend).
Implicit Types (s : gmap string (value B)) (l : list (event B)) (st : state B).
Implicit Types (i : input) (label key path : string).

#[local] Notation "'St' s l" := (make_state B s l) (at level 10, s at level 9, l at level 9).

(** *** Symbolic execution

    [exec] unfolds the script down to the session lookups and the library
    results, which stay as they are. *)

Ltac exec :=
  cbv beta iota zeta delta
    [ run_streamlit chat_panel send_flow select_document preload_data load_pdf
      split_documents initialize_embeddings initialize_llm create_prompt
      create_chains process_question sidebar_button button text_input show
      library emit lift ret raise bind session_contains session_getattr
      session_setattr session_pop experimental_rerun dict_getitem as_history
      make_state session log outcome_of_result result_bind pipeline
      pipeline_calls answering answering_calls question_arg built_chain ].

Ltac same_log := repeat rewrite <- app_assoc; reflexivity.

(** *** The ingestion pipeline *)

Lemma preload_data_run path s l :
  preload_data B (VStr B path) (St s l) =
  (outcome_of_result (pipeline B path), St s (l ++ pipeline_calls B path)).
Proof.
  exec.
  destruct (PyPDFLoader_load B path) as [docs|e]; [|same_log].
  destruct (RecursiveCharacterTextSplitter_split_documents B 1000 200 docs) as [documents|e];
    [|same_log].
  destruct (FAISS_from_documents B documents (OllamaEmbeddings B)) as [db|e]; same_log.
Qed.

(** *** Blocks of the script *)

Lemma show_run {C} w (k : unit -> script B C) s l :
  bind B (show B w) k (St s l) = k tt (St s (l ++ [Shown B w])).
Proof. reflexivity. Qed.

Lemma init_default_run {C} key v (k : unit -> script B C) s l :
  bind B (session_contains B key)
    (fun has => bind B (if negb has then session_setattr B key v else ret B tt) k) (St s l)
  = k tt (St (with_default B key v s) l).
Proof. exec. unfold with_default. by destruct (s !! key). Qed.

Lemma button_value_pressed i label label' :
  pressed i = Some label -> button_value i label' = bool_decide (label = label').
Proof.
  intros H. unfold button_value. rewrite H.
  apply bool_decide_ext. split; congruence.
Qed.

Lemma button_value_released i label : button_value (released i) label = false.
Proof. reflexivity. Qed.

Lemma select_document_skipped {C} i label key (k : unit -> script B C) s l :
  button_value i label = false ->
  bind B (select_document B i label key) k (St s l)
  = k tt (St s (l ++ [Shown B (st_sidebar_button label)])).
Proof. intros H. exec. by rewrite H. Qed.

Lemma insert_with_default key v w s :
  <[key := v]> (with_default B key w s) = <[key := v]> s.
Proof.
  unfold with_default. destruct (s !! key); [done|]. apply insert_insert_eq.
Qed.

Lemma select_document_clicked {C} i label key path (k : unit -> script B C) s l :
  button_value i label = true ->
  pdf_paths !! key = Some path ->
  bind B (select_document B i label key) k (St s l)
  = (match pipeline B path with
     | Ok _ => Halt RerunException
     | Raise e => Halt (Exception e)
     end,
     St (select_session B path s)
        (l ++ [Shown B (st_sidebar_button label)] ++ pipeline_calls B path)).
Proof.
  intros Hb Hp. unfold select_session. exec. rewrite Hb, Hp.
  rewrite lookup_delete_ne by done. rewrite lookup_insert_eq. exec.
  destruct (PyPDFLoader_load B path) as [docs|e]; [|same_log].
  destruct (RecursiveCharacterTextSplitter_split_documents B 1000 200 docs) as [documents|e];
    [|same_log].
  destruct (FAISS_from_documents B documents (OllamaEmbeddings B)) as [db|e]; same_log.
Qed.

Lemma select_session_default path w s :
  select_session B path (with_default B "pdf_path" w s) = select_session B path s.
Proof. unfold select_session. by rewrite insert_with_default. Qed.

Lemma sidebar_key_cases label key :
  sidebar_key label = Some key ->
  (label, key) ∈ sidebar_buttons.
Proof.
  unfold sidebar_key. simpl.
  repeat (case_bool_decide; [subst; simpl; intros [= <-]; set_solver|]).
  discriminate.
Qed.

(** A run in which one of the five sidebar buttons is pressed. *)
Lemma run_streamlit_select i label key path s l :
  pressed i = Some label ->
  sidebar_key label = Some key ->
  pdf_paths !! key = Some path ->
  run_streamlit B i (St s l)
  = (match pipeline B path with
     | Ok _ => Halt RerunException
     | Raise e => Halt (Exception e)
     end,
     St (select_session B path s)
        (l ++ page_top B ++ sidebar_until B label sidebar_buttons ++ pipeline_calls B path)).
Proof.
  intros Hi Hk Hp. apply sidebar_key_cases in Hk.
  unfold run_streamlit. rewrite !show_run, init_default_run, show_run.
  unfold sidebar_buttons in Hk.
  repeat (apply elem_of_cons in Hk as [[= -> ->]|Hk];
    [ repeat (rewrite select_document_skipped
                by (rewrite (button_value_pressed _ _ _ Hi); reflexivity));
      rewrite (select_document_clicked _ _ _ path)
        by (done || (rewrite (button_value_pressed _ _ _ Hi); reflexivity));
      rewrite select_session_default; f_equal; unfold page_top; same_log
    | ]).
  by apply elem_of_nil in Hk.
Qed.

Lemma not_selection_button i label :
  is_selection i = false ->
  is_Some (sidebar_key label) ->
  button_value i label = false.
Proof.
  unfold is_selection, button_value. intros Hi Hin.
  destruct (pressed i) as [pressed_label|]; [|done].
  apply bool_decide_eq_false in Hi.
  apply bool_decide_eq_false. by intros [= ->].
Qed.

(** A run in which no sidebar button is pressed reaches line 183. *)
Lemma run_streamlit_no_selection i s l :
  is_selection i = false ->
  run_streamlit B i (St s l)
  = let s0 := with_default B "pdf_path" (VNone B) s in
    let l0 := l ++ page_top B ++ sidebar_all B in
    match s0 !! "pdf_path" with
    | Some selected =>
        if is_not_None B selected then chat_panel B i (St s0 l0) else (Done tt, St s0 l0)
    | None => (Halt (Exception (AttributeError "pdf_path")), St s0 l0)
    end.
Proof.
  intros Hi. unfold run_streamlit.
  rewrite !show_run, init_default_run, show_run.
  rewrite !(select_document_skipped i)
    by (apply not_selection_button; [done | by eexists]).
  rewrite show_run. cbv zeta.
  replace (l ++ page_top B ++ sidebar_all B) with
    ((((((((((l ++ [Shown B (st_title "ENROLL EASE")]) ++
      [Shown B (st_markdown custom_styling)]) ++
      [Shown B (st_sidebar_title "Ask Queries Regarding:")]) ++
      [Shown B (st_sidebar_markdown "<div class='button-container'>")]) ++
      [Shown B (st_sidebar_button "About College")]) ++
      [Shown B (st_sidebar_button "Admission Process")]) ++
      [Shown B (st_sidebar_button "Cut-off")]) ++
      [Shown B (st_sidebar_button "Seat Allotment")]) ++
      [Shown B (st_sidebar_button "Fees Structure")]) ++
      [Shown B (st_sidebar_markdown "</div>")])
    by (unfold page_top, sidebar_all; same_log).
  exec.
  destruct (with_default B "pdf_path" (VNone B) s !! "pdf_path") as [selected|];
    [destruct (is_not_None B selected)|]; reflexivity.
Qed.

Lemma render_history_run {C} h (k : unit -> script B C) s l :
  bind B (render_history B h) k (St s l) = k tt (St s (l ++ history_events B h)).
Proof.
  revert l. induction h as [|c h IH]; intros l.
  - unfold history_events. simpl. by rewrite app_nil_r.
  - change (render_history B (c :: h)) with
      (bind B (show B (st_markdown (user_message B c))) (fun _ =>
       bind B (show B (st_markdown (bot_message B c))) (fun _ => render_history B h))).
    transitivity (bind B (render_history B h) k
      (St s ((l ++ [Shown B (st_markdown (user_message B c))])
               ++ [Shown B (st_markdown (bot_message B c))]))).
    + reflexivity.
    + rewrite IH. f_equal. f_equal. unfold history_events. simpl. same_log.
Qed.

(** Lines 184-193, when the stored history is a list. *)
Lemma chat_panel_run i s l h :
  with_default B "chat_history" (VHistory B []) s !! "chat_history" = Some (VHistory B h) ->
  chat_panel B i (St s l)
  = send_flow B i (typed i)
      (St (with_default B "chat_history" (VHistory B []) s)
          (l ++ history_events B h ++ [question_box B])).
Proof.
  intros Hh. unfold chat_panel. rewrite init_default_run.
  unfold bind at 1. unfold session_getattr at 1.
  cbv beta iota zeta delta [make_state session]. rewrite Hh.
  unfold bind at 1. unfold as_history at 1, ret at 1.
  fold (make_state B (with_default B "chat_history" (VHistory B []) s) l).
  rewrite render_history_run.
  unfold text_input. unfold bind at 1 2. unfold show, emit, ret.
  cbv beta iota zeta delta [make_state session log].
  f_equal. f_equal. unfold question_box. same_log.
Qed.

Lemma history_typed_default s :
  history_typed B s ->
  with_default B "chat_history" (VHistory B []) s !! "chat_history"
  = Some (VHistory B (history_of B s)).
Proof.
  unfold with_default, history_of. intros [Hs|[h Hs]]; rewrite Hs.
  - by rewrite lookup_insert_eq.
  - done.
Qed.

(** Lines 195-204. *)
Lemma send_flow_run i q s l :
  send_flow B i q (St s l)
  = if button_value i "Send" && truthy q then
      match s !! "db" with
      | None => (Done tt, St s (l ++ [send_button B; category_warning B]))
      | Some db =>
          match answering B db q with
          | Ok a =>
              match s !! "chat_history" with
              | Some (VHistory _ h) =>
                  (Halt RerunException,
                   St (<["chat_history" := VHistory B (h ++ [ {| question := q; answer := a |} ])]> s)
                      (l ++ [send_button B] ++ answering_calls B db q))
              | Some _ =>
                  (Halt (Exception (TypeError "chat_history is not a list")),
                   St s (l ++ [send_button B] ++ answering_calls B db q))
              | None =>
                  (Halt (Exception (AttributeError "chat_history")),
                   St s (l ++ [send_button B] ++ answering_calls B db q))
              end
          | Raise e => (Halt (Exception e), St s (l ++ [send_button B] ++ answering_calls B db q))
          end
      end
    else (Done tt, St s (l ++ [send_button B])).
Proof.
  unfold send_button, category_warning. exec.
  destruct (button_value i "Send" && truthy q); exec; [|done].
  destruct (s !! "db") as [db|] eqn:Hdb; exec; [|same_log].
  destruct (ChatGroq B (groq_api_key B) "mixtral-8x7b-32768") as [llm|e]; exec; [|same_log].
  destruct (ChatPromptTemplate_from_template B prompt_template) as [prompt|e]; exec;
    [|same_log].
  rewrite Hdb; exec.
  destruct (create_stuff_documents_chain B llm prompt) as [doc_chain|e]; exec;
    [|destruct db; same_log].
  destruct db as [|path|store|h0]; exec; try same_log.
  destruct (chain_invoke B _ _) as [response|e]; exec; [|same_log].
  destruct (response !! "answer") as [a|]; exec; [|same_log].
  destruct (s !! "chat_history") as [[|?|?|h]|]; exec; same_log.
Qed.

(** A run with a selected document and no sidebar button pressed. *)
Lemma run_streamlit_chat i path s l :
  is_selection i = false ->
  s !! "pdf_path" = Some (VStr B path) ->
  history_typed B s ->
  run_streamlit B i (St s l)
  = let s1 := with_default B "chat_history" (VHistory B []) s in
    let l1 := l ++ chat_page B s in
    if button_value i "Send" && truthy (typed i) then
      match s !! "db" with
      | None => (Done tt, St s1 (l1 ++ [category_warning B]))
      | Some db =>
          match answering B db (typed i) with
          | Ok a =>
              (Halt RerunException,
               St (<["chat_history" :=
                       VHistory B (history_of B s ++ [ {| question := typed i; answer := a |} ])]> s)
                  (l1 ++ answering_calls B db (typed i)))
          | Raise e => (Halt (Exception e), St s1 (l1 ++ answering_calls B db (typed i)))
          end
      end
    else (Done tt, St s1 l1).
Proof.
  intros Hi Hp Hh. rewrite run_streamlit_no_selection by done. cbv zeta.
  assert (with_default B "pdf_path" (VNone B) s = s) as ->
    by (unfold with_default; by rewrite Hp).
  rewrite Hp. cbn [is_not_None].
  rewrite (chat_panel_run i s _ (history_of B s)) by by apply history_typed_default.
  rewrite send_flow_run.
  assert (with_default B "chat_history" (VHistory B []) s !! "db" = s !! "db") as ->.
  { unfold with_default. destruct (s !! "chat_history"); [done|]. by rewrite lookup_insert_ne. }
  rewrite history_typed_default by done.
  unfold chat_page.
  destruct (button_value i "Send" && truthy (typed i)).
  - destruct (s !! "db") as [db|]; [|f_equal; f_equal; same_log].
    destruct (answering B db (typed i)); [rewrite insert_with_default|];
      f_equal; f_equal; same_log.
  - f_equal. f_equal. same_log.
Qed.

(** A run with no document selected and no sidebar button pressed. *)
Lemma run_streamlit_blank i s l :
  is_selection i = false ->
  s !! "pdf_path" = None \/ s !! "pdf_path" = Some (VNone B) ->
  run_streamlit B i (St s l)
  = (Done tt, St (with_default B "pdf_path" (VNone B) s) (l ++ page_top B ++ sidebar_all B)).
Proof.
  intros Hi Hp. rewrite run_streamlit_no_selection by done. cbv zeta.
  unfold with_default. destruct Hp as [Hp|Hp]; rewrite Hp.
  - by rewrite lookup_insert_eq.
  - by rewrite Hp.
Qed.

(** *** Facts about the logged events *)

Lemma sidebar_key_path label key :
  sidebar_key label = Some key ->
  exists path, pdf_paths !! key = Some path /\ path ∈ selectable_paths.
Proof.
  intros Hk. apply sidebar_key_cases in Hk. unfold sidebar_buttons in Hk.
  repeat (apply elem_of_cons in Hk as [[= -> ->]|Hk];
    [eexists; split; [reflexivity | unfold selectable_paths; simpl; set_solver]|]).
  by apply elem_of_nil in Hk.
Qed.

Lemma is_selection_pressed i :
  is_selection i = true ->
  exists label key, pressed i = Some label /\ sidebar_key label = Some key.
Proof.
  unfold is_selection. destruct (pressed i) as [label|]; [|done].
  intros [key Hk]%bool_decide_eq_true. by exists label, key.
Qed.

Lemma history_events_app h h' :
  history_events B (h ++ h') = history_events B h ++ history_events B h'.
Proof. unfold history_events. apply flat_map_app. Qed.

(** *** Lookups in the sessions a run produces *)

Lemma with_default_other key key' v s :
  key ≠ key' -> with_default B key v s !! key' = s !! key'.
Proof.
  intros Hne. unfold with_default. destruct (s !! key); [done|].
  by rewrite lookup_insert_ne.
Qed.

Lemma with_default_same key v s :
  with_default B key v s !! key = Some (default v (s !! key)).
Proof.
  unfold with_default. destruct (s !! key) eqn:Hs; simpl; [done|].
  by rewrite lookup_insert_eq.
Qed.

Lemma select_session_path path s :
  select_session B path s !! "pdf_path" = Some (VStr B path).
Proof.
  unfold select_session. destruct (pipeline B path).
  - rewrite lookup_insert_ne by done. rewrite lookup_delete_ne by done.
    by rewrite lookup_insert_eq.
  - rewrite lookup_delete_ne by done. by rewrite lookup_insert_eq.
Qed.

Lemma select_session_db path s :
  select_session B path s !! "db"
  = match pipeline B path with
    | Ok db => Some (VDb B db)
    | Raise _ => None
    end.
Proof.
  unfold select_session. destruct (pipeline B path).
  - by rewrite lookup_insert_eq.
  - by rewrite lookup_delete_eq.
Qed.

Lemma select_session_other path key s :
  key ≠ "pdf_path" -> key ≠ "db" ->
  select_session B path s !! key = s !! key.
Proof.
  intros H1 H2. unfold select_session. destruct (pipeline B path).
  - rewrite lookup_insert_ne by done. rewrite lookup_delete_ne by done.
    by rewrite lookup_insert_ne.
  - rewrite lookup_delete_ne by done. by rewrite lookup_insert_ne.
Qed.

(** *** The invariant *)

Lemma question_flow_follows_selection_app l l' :
  question_flow_follows_selection B l ->
  (existsb (in_question_flow B) l' = true -> selection_seen B l = true) ->
  question_flow_follows_selection B (l ++ l').
Proof.
  intros Hl Hl' l1 e l2 Heq He.
  apply app_eq_app in Heq as [m [[-> Hm]|[-> Hm]]].
  - destruct m as [|e' m].
    + rewrite app_nil_r in Hl'. apply Hl'. simpl in Hm. rewrite <- Hm. simpl.
      by rewrite He.
    + injection Hm as <- ->. by apply (Hl l1 e m).
  - unfold selection_seen in *. rewrite existsb_app.
    rewrite Hl'; [done|]. rewrite Hm. rewrite existsb_app. simpl. rewrite He.
    by rewrite orb_true_r.
Qed.

Lemma consistent_initial : consistent B (initial_state B).
Proof.
  split; simpl.
  - by left.
  - by left.
  - by left.
  - rewrite lookup_empty. by intros [? ?].
  - intros (path & _ & Hp). by rewrite lookup_empty in Hp.
  - done.
  - intros [|??] ???; done.
Qed.

Lemma send_shown_app l l' : send_shown B (l ++ l') = send_shown B l || send_shown B l'.
Proof. apply existsb_app. Qed.

Lemma selection_seen_app l l' :
  selection_seen B (l ++ l') = selection_seen B l || selection_seen B l'.
Proof. apply existsb_app. Qed.

Lemma consistent_received i st :
  consistent B st ->
  consistent B (St (session B st) (log B st ++ [Received B i])).
Proof.
  intros [Hp Hh Hd Hdp Hsel Hs Hf]. split; cbn [session log make_state]; try done.
  - intros H. rewrite selection_seen_app. by rewrite Hsel.
  - rewrite send_shown_app. simpl. by rewrite orb_false_r.
  - apply question_flow_follows_selection_app; [done|]. simpl. done.
Qed.

(** The page skeleton, the sidebar and the ingestion calls contain neither
    the Send button nor any event of the question flow. *)
Lemma quiet_page_top :
  send_shown B (page_top B) = false /\ existsb (in_question_flow B) (page_top B) = false.
Proof. done. Qed.

Lemma quiet_sidebar_all :
  send_shown B (sidebar_all B) = false
  /\ existsb (in_question_flow B) (sidebar_all B) = false.
Proof. done. Qed.

Lemma quiet_sidebar_until label :
  send_shown B (sidebar_until B label sidebar_buttons) = false
  /\ existsb (in_question_flow B) (sidebar_until B label sidebar_buttons) = false.
Proof. simpl. repeat case_bool_decide; done. Qed.

Lemma quiet_pipeline_calls path :
  send_shown B (pipeline_calls B path) = false
  /\ existsb (in_question_flow B) (pipeline_calls B path) = false.
Proof.
  unfold pipeline_calls.
  destruct (PyPDFLoader_load B path) as [docs|]; [|done].
  by destruct (RecursiveCharacterTextSplitter_split_documents B 1000 200 docs).
Qed.

Lemma path_selected_not_blank s :
  path_selected B s ->
  s !! "pdf_path" = None \/ s !! "pdf_path" = Some (VNone B) -> False.
Proof. intros (path & _ & Hp) [H|H]; congruence. Qed.

(** A run that renders the chat page keeps the invariant as long as it
    leaves the path and the index alone and stores a list as history. *)
Lemma consistent_chat_step s l s' extra :
  consistent B (St s l) ->
  path_selected B s ->
  s' !! "pdf_path" = s !! "pdf_path" ->
  s' !! "db" = s !! "db" ->
  (exists h, s' !! "chat_history" = Some (VHistory B h)) ->
  consistent B (St s' (l ++ chat_page B s ++ extra)).
Proof.
  intros [Hp Hh Hd Hdp Hseen Hs Hf] Hsel Hpath Hdb Hhist.
  cbn [session log make_state] in *.
  assert (path_selected B s') as Hsel'.
  { destruct Hsel as (path & ? & ?). exists path. split; [done|congruence]. }
  split; cbn [session log make_state].
  - by right; right.
  - by right.
  - unfold index_typed. by rewrite Hdb.
  - done.
  - intros _. rewrite selection_seen_app. by rewrite Hseen.
  - intros _. split; [done|]. destruct Hhist as [h ->]. by eexists.
  - apply question_flow_follows_selection_app; [done|]. intros _. by apply Hseen.
Qed.

(** One run of the script keeps the invariant. *)
Lemma run_streamlit_consistent i s l o st' :
  consistent B (St s l) ->
  (is_selection i = true -> selection_seen B l = true) ->
  run_streamlit B i (St s l) = (o, st') ->
  consistent B st'.
Proof.
  intros Hc Hseen Hrun. pose proof Hc as [Hp Hh Hd Hdp Hsel Hs Hf].
  cbn [session log make_state] in *.
  destruct (is_selection i) eqn:Hisel.
  - destruct (is_selection_pressed i Hisel) as (label & key & Hpr & Hk).
    destruct (sidebar_key_path label key Hk) as (path & Hpath & Hin).
    rewrite (run_streamlit_select i label key path) in Hrun by done.
    apply (f_equal snd) in Hrun; cbn [snd] in Hrun; subst st'.
    assert (path_selected B (select_session B path s)) as Hsel'.
    { exists path. split; [done|]. apply select_session_path. }
    split; cbn [session log make_state].
    + by right; right.
    + unfold history_typed. by rewrite select_session_other.
    + unfold index_typed. rewrite select_session_db. destruct (pipeline B path); eauto.
    + done.
    + intros _. rewrite selection_seen_app. by rewrite Hseen.
    + rewrite !send_shown_app.
      rewrite (proj1 quiet_page_top), (proj1 (quiet_sidebar_until _)),
        (proj1 (quiet_pipeline_calls _)), !orb_false_r.
      intros H. split; [done|]. rewrite select_session_other by done. by apply Hs.
    + apply question_flow_follows_selection_app; [done|]. rewrite !existsb_app.
      by rewrite (proj2 quiet_page_top), (proj2 (quiet_sidebar_until _)),
        (proj2 (quiet_pipeline_calls _)).
  - destruct Hp as [Hp|[Hp|Hp]].
    1,2: rewrite run_streamlit_blank in Hrun by auto;
         apply (f_equal snd) in Hrun; cbn [snd] in Hrun; subst st'.
    1,2: assert (path_selected B (with_default B "pdf_path" (VNone B) s) -> False) as Hno
           by (intros (path & _ & Hpath); rewrite with_default_same, Hp in Hpath;
               discriminate).
    1,2: split; cbn [session log make_state].
    1,8: right; left; by rewrite with_default_same, Hp.
    1,7: unfold history_typed; by rewrite with_default_other.
    1,6: unfold index_typed; by rewrite with_default_other.
    1,5: rewrite with_default_other by done; intros H;
         exfalso; eapply path_selected_not_blank; eauto.
    1,4: by intros H.
    1,3: rewrite !send_shown_app, (proj1 quiet_page_top), (proj1 quiet_sidebar_all),
           !orb_false_r; intros H; destruct (Hs H) as [Hsel' _];
         exfalso; eapply path_selected_not_blank; eauto.
    1,2: apply question_flow_follows_selection_app; [done|]; rewrite !existsb_app;
         by rewrite (proj2 quiet_page_top), (proj2 quiet_sidebar_all).
    pose proof Hp as (path & Hin & Hpath).
    rewrite (run_streamlit_chat i path) in Hrun by done. cbv zeta in Hrun.
    assert (forall key, key ≠ "chat_history" ->
      with_default B "chat_history" (VHistory B []) s !! key = s !! key) as Hother.
    { intros key Hkey. by apply with_default_other. }
    assert (exists h, with_default B "chat_history" (VHistory B []) s !! "chat_history"
                      = Some (VHistory B h)) as Hhist
      by (eexists; by apply history_typed_default).
    assert (forall v : value B, <["chat_history" := v]> s !! "pdf_path" = s !! "pdf_path")
      as Hins1 by (intros v; by rewrite lookup_insert_ne).
    assert (forall v : value B, <["chat_history" := v]> s !! "db" = s !! "db")
      as Hins2 by (intros v; by rewrite lookup_insert_ne).
    destruct (button_value i "Send" && truthy (typed i));
      [destruct (s !! "db") as [db|] eqn:Hdb;
        [destruct (answering B db (typed i)) as [a|e]|]|];
      apply (f_equal snd) in Hrun; cbn [snd] in Hrun; subst st';
      rewrite <- ?app_assoc;
      try match goal with
          | |- consistent _ (make_state _ _ (_ ++ chat_page _ _)) =>
              rewrite <- (app_nil_r (chat_page B s))
          end;
      apply consistent_chat_step;
      first [ done | by apply Hother | by rewrite Hdb
            | eexists; apply lookup_insert_eq ].
Qed.

(** *** Reruns *)

Lemma state_eta st : st = St (session B st) (log B st).
Proof. by destruct st. Qed.

(** The run that follows a rerun request has no button pressed, and such
    a run never asks for another rerun. *)
Lemma released_no_rerun i st :
  fst (run_streamlit B (released i) st) ≠ Halt RerunException.
Proof.
  rewrite (state_eta st). generalize (session B st) (log B st). clear st. intros s l.
  rewrite run_streamlit_no_selection by done. cbv zeta.
  destruct (with_default B "pdf_path" (VNone B) s !! "pdf_path") as [selected|]; [|done].
  destruct (is_not_None B selected); [|done].
  generalize (with_default B "pdf_path" (VNone B) s) (l ++ page_top B ++ sidebar_all B).
  clear s l. intros s l.
  destruct (with_default B "chat_history" (VHistory B []) s !! "chat_history")
    as [[| | |h]|] eqn:Hch.
  4: { rewrite (chat_panel_run _ _ _ h Hch), send_flow_run.
       rewrite button_value_released. done. }
  all: unfold chat_panel; rewrite init_default_run; exec; by rewrite Hch.
Qed.

(** Two runs always suffice, and more fuel changes nothing. *)
Lemma script_runs_enough fuel i st :
  script_runs B (S (S fuel)) i st = script_runs B 2 i st
  /\ is_Some (script_runs B 2 i st).
Proof.
  cbn [script_runs].
  destruct (run_streamlit B i st) as [[[]|[|e]] st1]; [by eauto| |by eauto].
  pose proof (released_no_rerun i st1) as Hno.
  destruct (run_streamlit B (released i) st1) as [[[]|[|e]] st2]; simpl in Hno;
    [by eauto|done|by eauto].
Qed.

Lemma interact_enough fuel i st :
  interact B (S (S fuel)) i st = interact B 2 i st /\ is_Some (interact B 2 i st).
Proof. apply script_runs_enough. Qed.

Lemma script_runs_consistent fuel i st st' :
  consistent B st ->
  (is_selection i = true -> selection_seen B (log B st) = true) ->
  script_runs B fuel i st = Some st' ->
  consistent B st'.
Proof.
  revert i st. induction fuel as [|fuel IH]; intros i st Hc Hseen Hrun; [done|].
  cbn [script_runs] in Hrun.
  destruct (run_streamlit B i st) as [o st1] eqn:Hpass.
  assert (consistent B st1) as Hc1.
  { rewrite (state_eta st) in Hpass, Hc.
    by eapply run_streamlit_consistent. }
  destruct o as [[]|[|e]].
  - by injection Hrun as <-.
  - by eapply (IH (released i) st1).
  - by injection Hrun as <-.
Qed.

Lemma interact_consistent fuel i st st' :
  consistent B st -> interact B fuel i st = Some st' -> consistent B st'.
Proof.
  intros Hc Hrun. unfold interact in Hrun.
  eapply script_runs_consistent; [|  |exact Hrun].
  - by apply consistent_received.
  - intros Hsel. cbn [log]. rewrite selection_seen_app. simpl. rewrite Hsel.
    by rewrite orb_true_r.
Qed.

Lemma reachable_consistent st : reachable B st -> consistent B st.
Proof.
  induction 1 as [|st st' i fuel _ IH _ Hrun].
  - apply consistent_initial.
  - by eapply interact_consistent.
Qed.

(** *** Whole interactions *)

(** The run that follows a rerun request, with a document selected. *)
Lemma run_streamlit_released i path s l :
  s !! "pdf_path" = Some (VStr B path) ->
  history_typed B s ->
  run_streamlit B (released i) (St s l)
  = (Done tt, St (with_default B "chat_history" (VHistory B []) s) (l ++ chat_page B s)).
Proof.
  intros Hp Hh. rewrite (run_streamlit_chat _ path) by done. cbv zeta.
  by rewrite button_value_released.
Qed.

Lemma history_typed_select path s :
  history_typed B s -> history_typed B (select_session B path s).
Proof. unfold history_typed. by rewrite select_session_other. Qed.

(** Clicking a document button. *)
Lemma interact_select i label key path st :
  history_typed B (session B st) ->
  pressed i = Some label ->
  sidebar_key label = Some key ->
  pdf_paths !! key = Some path ->
  let s' := select_session B path (session B st) in
  let l' := log B st ++ [Received B i] ++ page_top B
              ++ sidebar_until B label sidebar_buttons ++ pipeline_calls B path in
  interact B 2 i st
  = Some (match pipeline B path with
          | Ok _ => St (with_default B "chat_history" (VHistory B []) s') (l' ++ chat_page B s')
          | Raise _ => St s' l'
          end).
Proof.
  intros Hh Hi Hk Hp. cbv zeta. unfold interact. cbn [script_runs].
  fold (St (session B st) (log B st ++ [Received B i])).
  rewrite (run_streamlit_select i label key path) by done.
  rewrite <- !app_assoc.
  destruct (pipeline B path) as [db|e] eqn:Hpipe; [|done].
  rewrite (run_streamlit_released i path).
  - by rewrite <- !app_assoc.
  - apply select_session_path.
  - by apply history_typed_select.
Qed.

(** Any interaction other than a document click, with a document selected. *)
Lemma interact_chat i path st :
  history_typed B (session B st) ->
  is_selection i = false ->
  session B st !! "pdf_path" = Some (VStr B path) ->
  let s := session B st in
  let s1 := with_default B "chat_history" (VHistory B []) s in
  let l1 := log B st ++ [Received B i] ++ chat_page B s in
  interact B 2 i st
  = Some (if sending i then
            match s !! "db" with
            | None => St s1 (l1 ++ [category_warning B])
            | Some db =>
                match answering B db (typed i) with
                | Ok a =>
                    let s2 := <["chat_history" :=
                                  VHistory B (history_of B s
                                    ++ [ {| question := typed i; answer := a |} ])]> s in
                    St s2 (l1 ++ answering_calls B db (typed i) ++ chat_page B s2)
                | Raise _ => St s1 (l1 ++ answering_calls B db (typed i))
                end
            end
          else St s1 l1).
Proof.
  intros Hh Hi Hp. cbv zeta. unfold interact, sending. cbn [script_runs].
  fold (St (session B st) (log B st ++ [Received B i])).
  rewrite (run_streamlit_chat i path) by done. cbv zeta.
  rewrite <- !app_assoc.
  destruct (button_value i "Send" && truthy (typed i)); [|done].
  destruct (session B st !! "db") as [db|]; [|done].
  destruct (answering B db (typed i)) as [a|e]; [|done].
  rewrite (run_streamlit_released i path).
  - rewrite <- !app_assoc. do 2 f_equal.
    unfold with_default. by rewrite lookup_insert_eq.
  - by rewrite lookup_insert_ne.
  - right. eexists. apply lookup_insert_eq.
Qed.

(** Any interaction other than a document click, with no document selected. *)
Lemma interact_blank i st :
  is_selection i = false ->
  session B st !! "pdf_path" = None \/ session B st !! "pdf_path" = Some (VNone B) ->
  interact B 2 i st
  = Some (St (with_default B "pdf_path" (VNone B) (session B st))
             (log B st ++ [Received B i] ++ page_top B ++ sidebar_all B)).
Proof.
  intros Hi Hp. unfold interact. cbn [script_runs].
  fold (St (session B st) (log B st ++ [Received B i])).
  rewrite run_streamlit_blank by done. by rewrite <- !app_assoc.
Qed.

(** *** Small facts used by the main statements *)

Lemma send_is_not_selection i : pressed i = Some "Send" -> is_selection i = false.
Proof. intros H. unfold is_selection. by rewrite H. Qed.

Lemma truthy_nonempty q : q ≠ "" -> truthy q = true.
Proof. by destruct q. Qed.

Lemma sending_send i : pressed i = Some "Send" -> typed i ≠ "" -> sending i = true.
Proof.
  intros Hp Hq. unfold sending, button_value. rewrite Hp.
  by rewrite truthy_nonempty.
Qed.

Lemma process_question_run chain q s l :
  process_question B chain q (St s l)
  = (match chain_invoke B chain (question_arg B q) with
     | Ok response =>
         match response !! "answer" with
         | Some a => Done a
         | None => Halt (Exception (KeyError "answer"))
         end
     | Raise e => Halt (Exception e)
     end,
     St s (l ++ [Called B (call_invoke B chain (question_arg B q))])).
Proof.
  exec. destruct (chain_invoke B chain _) as [response|e]; [|done].
  by destruct (response !! "answer").
Qed.

Lemma history_of_ext s s' :
  s' !! "chat_history" = s !! "chat_history" -> history_of B s' = history_of B s.
Proof. unfold history_of. by intros ->. Qed.

Lemma history_of_default s :
  history_typed B s ->
  history_of B (with_default B "chat_history" (VHistory B []) s) = history_of B s.
Proof.
  intros Hh. unfold history_of at 1. rewrite history_typed_default by done. done.
Qed.

Lemma chat_page_ext s s' :
  history_of B s' = history_of B s -> chat_page B s' = chat_page B s.
Proof. unfold chat_page. by intros ->. Qed.

Lemma with_default_present key v s : is_Some (s !! key) -> with_default B key v s = s.
Proof. intros [w Hw]. unfold with_default. by rewrite Hw. Qed.

Lemma history_events_no_call h : existsb (is_call B) (history_events B h) = false.
Proof. induction h as [|c h IH]; [done|]. simpl. apply IH. Qed.

Lemma existsb_elem (P : event B -> bool) l e :
  e ∈ l -> P e = true -> existsb P l = true.
Proof.
  intros He HP. apply existsb_exists. exists e. split; [|done].
  by apply list_elem_of_In.
Qed.

Lemma selection_seen_elem l :
  selection_seen B l = true ->
  exists i, Received B i ∈ l /\ is_selection i = true.
Proof.
  unfold selection_seen. intros (e & He & Hs)%existsb_exists.
  destruct e as [i| |]; try done. exists i. split; [|done].
  by apply list_elem_of_In.
Qed.

(** Less fuel than two runs either fails or gives the same state. *)
Lemma interact_fuel fuel i st st' :
  interact B fuel i st = Some st' -> interact B 2 i st = Some st'.
Proof.
  destruct fuel as [|[|fuel]].
  - done.
  - unfold interact. cbn [script_runs].
    by destruct (run_streamlit B i _) as [[[]|[|e]] st1].
  - intros H. by rewrite <- (proj1 (interact_enough fuel i st)).
Qed.

(** After any interaction the key [pdf_path] is in the session. *)
Lemma interact_path_present i st st' :
  consistent B st -> interact B 2 i st = Some st' -> is_Some (session B st' !! "pdf_path").
Proof.
  intros Hc Hrun. pose proof Hc as [Hp Hh Hd Hdp Hsel Hs Hf].
  destruct (is_selection i) eqn:Hisel.
  - destruct (is_selection_pressed i Hisel) as (label & key & Hpr & Hk).
    destruct (sidebar_key_path label key Hk) as (path & Hpath & Hin).
    rewrite (interact_select i label key path) in Hrun by done. cbv zeta in Hrun.
    injection Hrun as <-. exists (VStr B path).
    destruct (pipeline B path); cbn [session make_state];
      rewrite ?with_default_other by done; apply select_session_path.
  - destruct Hp as [Hp|[Hp|(path & Hin & Hp)]].
    1,2: rewrite interact_blank in Hrun by auto; injection Hrun as <-;
         cbn [session make_state]; rewrite with_default_same; by eexists.
    rewrite (interact_chat i path) in Hrun by done. cbv zeta in Hrun.
    injection Hrun as <-.
    destruct (sending i); [destruct (session B st !! "db") as [db|];
      [destruct (answering B db (typed i))|]|]; cbn [session make_state];
      rewrite ?with_default_other by done; rewrite ?lookup_insert_ne by done;
      by rewrite Hp.
Qed.

Lemma reachable_path_present st :
  reachable B st -> st = initial_state B \/ is_Some (session B st !! "pdf_path").
Proof.
  destruct 1 as [|st st' i fuel Hreach _ Hrun]; [by left|]. right.
  eapply interact_path_present; [by apply reachable_consistent|].
  by eapply interact_fuel.
Qed.

(** ** The claims *)

(** C1. Every submitted question is answered by the retrieval chain built
    over the stored index: [process_question] passes the question to the
    chain under the key "input" and returns exactly the "answer" entry of
    the response (first part).  When Send is pressed with a non-empty
    question and an index is stored, the chain is
    [create_retrieval_chain (as_retriever store) doc_chain], the pair of
    the question and that answer is stored at the end of the history, and
    the run that follows shows the page again with the pair below the
    earlier history: the question in the user markup and the answer, as
    text, in the bot markup after "Bot:", followed by the question box and
    the Send button (second part). *)
Theorem answer_comes_from_retrieval_chain :
  (forall chain q s l,
     process_question B chain q (St s l)
     = (match chain_invoke B chain (question_arg B q) with
        | Ok response =>
            match response !! "answer" with
            | Some a => Done a
            | None => Halt (Exception (KeyError "answer"))
            end
        | Raise e => Halt (Exception e)
        end,
        St s (l ++ [Called B (call_invoke B chain (question_arg B q))])))
  /\ (forall st i store llm prompt doc_chain response a,
        reachable B st ->
        pressed i = Some "Send" ->
        typed i ≠ "" ->
        session B st !! "db" = Some (VDb B store) ->
        ChatGroq B (groq_api_key B) "mixtral-8x7b-32768" = Ok llm ->
        ChatPromptTemplate_from_template B prompt_template = Ok prompt ->
        create_stuff_documents_chain B llm prompt = Ok doc_chain ->
        let chain := create_retrieval_chain B (as_retriever B store) doc_chain in
        chain_invoke B chain (question_arg B (typed i)) = Ok response ->
        response !! "answer" = Some a ->
        let pair := {| question := typed i; answer := a |} in
        let s' := <["chat_history" :=
                      VHistory B (history_of B (session B st) ++ [pair])]> (session B st) in
        interact B 2 i st
        = Some (St s'
                  (log B st ++ [Received B i] ++ chat_page B (session B st)
                   ++ [ Called B (call_ChatGroq B (groq_api_key B) "mixtral-8x7b-32768");
                        Called B (call_from_template B prompt_template);
                        Called B (call_create_stuff_documents_chain B llm prompt);
                        Called B (call_as_retriever B store);
                        Called B (call_create_retrieval_chain B (as_retriever B store) doc_chain);
                        Called B (call_invoke B chain (question_arg B (typed i))) ]
                   ++ chat_page B s'))
        /\ chat_page B s'
           = page_top B ++ sidebar_all B
             ++ history_events B (history_of B (session B st))
             ++ [ Shown B (st_markdown
                    ("<div class='chat-box'><span class='user-message'>"
                       +:+ typed i +:+ "</span></div>"));
                  Shown B (st_markdown
                    ("<div class='chat-box'><span class='bot-message'><strong>Bot:</strong> "
                       +:+ match a with
                           | inl text => text
                           | inr docs => Document_list_str B docs
                           end
                       +:+ "</span></div>"));
                  Shown B (st_text_input "Enter your question:" "input"
                             "Type your question here...");
                  Shown B (st_button "Send") ]).
Proof.
  split; [apply process_question_run|].
  intros st i store llm prompt doc_chain response a Hreach Hp Hq Hdb Hllm Hprompt Hdoc
    chain Hinvoke Hanswer pair s'.
  pose proof (reachable_consistent st Hreach) as Hc.
  destruct (consistent_index_path B st Hc) as (path & _ & Hpath); [by rewrite Hdb|].
  split.
  - rewrite (interact_chat i path) by
      (done || apply (consistent_history B st Hc) || by apply send_is_not_selection).
    cbv zeta. rewrite sending_send by done. rewrite Hdb.
    unfold answering, answering_calls, built_chain. subst chain.
    rewrite Hllm. cbn [result_bind]. rewrite Hprompt. cbn [result_bind].
    rewrite Hdoc. cbn [result_bind]. rewrite Hinvoke. cbn [result_bind].
    rewrite Hanswer. by rewrite <- !app_assoc.
  - unfold chat_page, s', history_of. rewrite lookup_insert_eq.
    rewrite history_events_app. simpl. by rewrite <- !app_assoc.
Qed.

(** C3. Selecting a document runs the whole ingestion pipeline on it, in
    order: [preload_data] loads the PDF at the path, splits the loaded
    documents, and builds the FAISS index from exactly the chunks the
    splitter returned (first part).  After the click on a sidebar button the
    session holds the path of that button and this index, and the three
    library calls appear in the log in that order (second part). *)
Theorem selection_runs_ingestion_pipeline :
  (forall path docs chunks db s l,
     PyPDFLoader_load B path = Ok docs ->
     RecursiveCharacterTextSplitter_split_documents B 1000 200 docs = Ok chunks ->
     FAISS_from_documents B chunks (OllamaEmbeddings B) = Ok db ->
     preload_data B (VStr B path) (St s l)
     = (Done db,
        St s (l ++ [ Called B (call_PyPDFLoader_load B path);
                     Called B (call_split_documents B 1000 200 docs);
                     Called B (call_FAISS_from_documents B chunks) ])))
  /\ (forall st i label key path docs chunks db,
        reachable B st ->
        pressed i = Some label ->
        sidebar_key label = Some key ->
        pdf_paths !! key = Some path ->
        PyPDFLoader_load B path = Ok docs ->
        RecursiveCharacterTextSplitter_split_documents B 1000 200 docs = Ok chunks ->
        FAISS_from_documents B chunks (OllamaEmbeddings B) = Ok db ->
        exists st',
          interact B 2 i st = Some st'
          /\ session B st' !! "pdf_path" = Some (VStr B path)
          /\ session B st' !! "db" = Some (VDb B db)
          /\ log B st'
             = log B st ++ [Received B i] ++ page_top B
               ++ sidebar_until B label sidebar_buttons
               ++ [ Called B (call_PyPDFLoader_load B path);
                    Called B (call_split_documents B 1000 200 docs);
                    Called B (call_FAISS_from_documents B chunks) ]
               ++ chat_page B (session B st)).
Proof.
  split.
  - intros path docs chunks db s l Hload Hsplit Hindex.
    rewrite preload_data_run. unfold pipeline, pipeline_calls.
    rewrite Hload. cbn [result_bind]. rewrite Hsplit. cbn [result_bind].
    by rewrite Hindex.
  - intros st i label key path docs chunks db Hreach Hp Hk Hpath Hload Hsplit Hindex.
    pose proof (reachable_consistent st Hreach) as Hc.
    pose proof (consistent_history B st Hc) as Hh.
    assert (pipeline B path = Ok db) as Hpipe.
    { unfold pipeline. rewrite Hload. cbn [result_bind]. rewrite Hsplit.
      cbn [result_bind]. done. }
    eexists. split.
    { rewrite (interact_select i label key path) by done. cbv zeta.
      rewrite Hpipe. reflexivity. }
    cbn [session log make_state]. split; [|split].
    + rewrite with_default_other by done. apply select_session_path.
    + rewrite with_default_other by done. rewrite select_session_db. by rewrite Hpipe.
    + unfold pipeline_calls. rewrite Hload, Hsplit.
      rewrite (chat_page_ext (session B st)).
      * by rewrite <- !app_assoc.
      * apply history_of_ext. by rewrite select_session_other.
Qed.

(** C4. The selectable documents are fixed.  [pdf_paths] holds exactly five
    files, each of them belongs to one sidebar button, and in every
    reachable state the key [pdf_path] is missing (only before the first
    run), holds [None], or holds one of the five files. *)
Theorem selected_path_is_one_of_five :
  selectable_paths
  = [ "about_college.pdf"; "seatsmatrix.pdf"; "admissionprocess.pdf";
      "cuttoffs.pdf"; "feesstructure.pdf" ]
  /\ (forall path, path ∈ selectable_paths ->
        exists label key, sidebar_key label = Some key /\ pdf_paths !! key = Some path)
  /\ (forall st, reachable B st ->
        (st = initial_state B /\ session B st !! "pdf_path" = None)
        \/ session B st !! "pdf_path" = Some (VNone B)
        \/ exists path, path ∈ selectable_paths
                        /\ session B st !! "pdf_path" = Some (VStr B path)).
Proof.
  split; [reflexivity|]. split.
  - intros path Hin. unfold selectable_paths in Hin. simpl in Hin.
    repeat (apply elem_of_cons in Hin as [->|Hin]).
    + by exists "About College", "college_info".
    + by exists "Seat Allotment", "seatsmatrix".
    + by exists "Admission Process", "admission_process".
    + by exists "Cut-off", "Cutoff".
    + by exists "Fees Structure", "fees".
    + by apply elem_of_nil in Hin.
  - intros st Hreach.
    destruct (reachable_path_present st Hreach) as [->|[v Hv]]; [by left|].
    destruct (consistent_path B st (reachable_consistent st Hreach)) as [H|[H|H]].
    + congruence.
    + by right; left.
    + by right; right.
Qed.

(** C5. A document button replaces the stored index.  The block of a
    pressed button runs [preload_data] in a session from which the key
    [db] has already been removed, and stores the new index only when
    [preload_data] returns (first part).  So after the click the stored
    index is the one the pipeline built from the new path alone, and when
    the pipeline fails no index is stored at all (second part). *)
Theorem selection_replaces_index :
  (forall i label key path s l,
     button_value i label = true ->
     pdf_paths !! key = Some path ->
     select_document B i label key (St s l)
     = match preload_data B (VStr B path)
               (St (delete "db" (<["pdf_path" := VStr B path]> s))
                   (l ++ [Shown B (st_sidebar_button label)])) with
       | (Done db, st1) =>
           (Halt RerunException, St (<["db" := VDb B db]> (session B st1)) (log B st1))
       | (Halt sg, st1) => (Halt sg, st1)
       end)
  /\ (forall st i label key path,
        reachable B st ->
        pressed i = Some label ->
        sidebar_key label = Some key ->
        pdf_paths !! key = Some path ->
        exists st',
          interact B 2 i st = Some st'
          /\ session B st' !! "pdf_path" = Some (VStr B path)
          /\ session B st' !! "db"
             = match pipeline B path with
               | Ok db => Some (VDb B db)
               | Raise _ => None
               end).
Proof.
  split.
  - intros i label key path s l Hb Hpath.
    rewrite preload_data_run.
    pose proof (select_document_clicked (C := unit) i label key path (ret B) s l Hb Hpath)
      as Hrun.
    assert (bind B (select_document B i label key) (ret B) (St s l)
            = select_document B i label key (St s l)) as Hret.
    { unfold bind, ret. by destruct (select_document B i label key (St s l)) as [[[]|sg] st1]. }
    rewrite Hret in Hrun. rewrite Hrun. unfold select_session.
    destruct (pipeline B path) as [db|e]; cbn [outcome_of_result session log make_state];
      by rewrite <- !app_assoc.
  - intros st i label key path Hreach Hp Hk Hpath.
    pose proof (reachable_consistent st Hreach) as Hc.
    pose proof (consistent_history B st Hc) as Hh.
    eexists. split.
    { rewrite (interact_select i label key path) by done. cbv zeta. reflexivity. }
    destruct (pipeline B path) as [db|e] eqn:Hpipe; cbn [session make_state];
      rewrite ?with_default_other by done.
    + split; [apply select_session_path|]. rewrite select_session_db. by rewrite Hpipe.
    + split; [apply select_session_path|]. rewrite select_session_db. by rewrite Hpipe.
Qed.

(** C6. No question is answered before a document is selected.  A run
    shows the question box or the Send button, or makes any call of the
    answering flow, only if [pdf_path] already held a value other than
    [None] when the run started (first part).  In the log of every
    reachable state each such event comes after an interaction that clicked
    one of the document buttons (second part). *)
Theorem question_flow_needs_selection :
  (forall i s l o st' e,
     run_streamlit B i (St s l) = (o, st') ->
     e ∈ drop (length l) (log B st') ->
     in_question_flow B e = true ->
     exists selected, s !! "pdf_path" = Some selected /\ is_not_None B selected = true)
  /\ (forall st l1 e l2,
        reachable B st ->
        log B st = l1 ++ e :: l2 ->
        in_question_flow B e = true ->
        exists i, Received B i ∈ l1 /\ is_selection i = true).
Proof.
  split.
  - intros i s l o st' e Hrun He Hflow.
    assert (forall new, existsb (in_question_flow B) new = false ->
              log B st' = l ++ new -> False) as Hquiet.
    { intros new Hnew Hlog. rewrite Hlog, drop_app_length in He.
      rewrite (existsb_elem _ _ e He Hflow) in Hnew. discriminate. }
    destruct (is_selection i) eqn:Hisel.
    + destruct (is_selection_pressed i Hisel) as (label & key & Hpr & Hk).
      destruct (sidebar_key_path label key Hk) as (path & Hpath & Hin).
      rewrite (run_streamlit_select i label key path) in Hrun by done.
      apply (f_equal snd) in Hrun. cbn [snd] in Hrun. subst st'.
      exfalso. eapply Hquiet; [|reflexivity]. rewrite !existsb_app.
      by rewrite (proj2 quiet_page_top), (proj2 (quiet_sidebar_until _)),
        (proj2 (quiet_pipeline_calls _)).
    + rewrite run_streamlit_no_selection in Hrun by done. cbv zeta in Hrun.
      rewrite with_default_same in Hrun.
      destruct (s !! "pdf_path") as [selected|] eqn:Hsel;
        cbn [default from_option id] in Hrun.
      * destruct (is_not_None B selected) eqn:Hnone; [by exists selected|].
        apply (f_equal snd) in Hrun. cbn [snd] in Hrun. subst st'.
        exfalso. eapply Hquiet; [|reflexivity]. rewrite !existsb_app.
        by rewrite (proj2 quiet_page_top), (proj2 quiet_sidebar_all).
      * cbn [is_not_None] in Hrun.
        apply (f_equal snd) in Hrun. cbn [snd] in Hrun. subst st'.
        exfalso. eapply Hquiet; [|reflexivity]. rewrite !existsb_app.
        by rewrite (proj2 quiet_page_top), (proj2 quiet_sidebar_all).
  - intros st l1 e l2 Hreach Hlog Hflow.
    apply selection_seen_elem.
    by eapply (consistent_flow B st (reachable_consistent st Hreach)).
Qed.

(** C8. Send without an index.  In a reachable state, when the Send button
    (which must have been shown before it can be clicked) is pressed with a
    non-empty question and the session has no [db], the run shows the page
    and the warning "Please select a category first.", makes no library
    call at all, and leaves the session as it was. *)
Theorem send_without_index_warns :
  forall st i,
    reachable B st ->
    valid_input B st i = true ->
    pressed i = Some "Send" ->
    typed i ≠ "" ->
    session B st !! "db" = None ->
    interact B 2 i st
    = Some (St (session B st)
               (log B st ++ [Received B i] ++ chat_page B (session B st)
                ++ [Shown B (st_warning "Please select a category first.")]))
    /\ existsb (is_call B)
         (chat_page B (session B st)
          ++ [Shown B (st_warning "Please select a category first.")]) = false.
Proof.
  intros st i Hreach Hvalid Hp Hq Hdb.
  pose proof (reachable_consistent st Hreach) as Hc.
  unfold valid_input in Hvalid. rewrite Hp in Hvalid.
  destruct (consistent_send B st Hc Hvalid) as [(path & _ & Hpath) Hhist].
  split.
  - rewrite (interact_chat i path) by
      (done || apply (consistent_history B st Hc) || by apply send_is_not_selection).
    cbv zeta. rewrite sending_send by done. rewrite Hdb.
    rewrite with_default_present by done. unfold category_warning.
    by rewrite <- !app_assoc.
  - unfold chat_page. rewrite !existsb_app. by rewrite history_events_no_call.
Qed.

(** C9. The chat history only grows at its end.  Whatever the interaction,
    the history afterwards is the history before followed by [answered],
    which is the one pair of the question and its answer when Send was
    pressed with a non-empty question, an index is stored and the chain
    returned an answer, and nothing otherwise.  An interaction that is not
    a click on a document button leaves the stored index as it was and
    leaves the path as it was (a missing path becomes [None]). *)
Theorem chat_history_append_only :
  forall st i st',
    reachable B st ->
    interact B 2 i st = Some st' ->
    history_of B (session B st') = history_of B (session B st) ++ answered B (session B st) i
    /\ length (answered B (session B st) i) <= 1
    /\ (is_selection i = false ->
        session B st' !! "db" = session B st !! "db"
        /\ session B st' !! "pdf_path"
           = Some (default (VNone B) (session B st !! "pdf_path"))).
Proof.
  intros st i st' Hreach Hrun.
  pose proof (reachable_consistent st Hreach) as Hc.
  pose proof Hc as [Hp Hh Hd Hdp Hsel Hs Hf].
  split; [|split].
  - unfold answered. destruct (is_selection i) eqn:Hisel.
    + destruct (is_selection_pressed i Hisel) as (label & key & Hpr & Hk).
      destruct (sidebar_key_path label key Hk) as (path & Hpath & Hin).
      rewrite (interact_select i label key path) in Hrun by done. cbv zeta in Hrun.
      injection Hrun as <-. rewrite app_nil_r.
      destruct (pipeline B path); cbn [session make_state].
      * rewrite history_of_default by by apply history_typed_select.
        apply history_of_ext. by rewrite select_session_other.
      * apply history_of_ext. by rewrite select_session_other.
    + destruct Hp as [Hp|[Hp|(path & Hin & Hp)]].
      1,2: rewrite interact_blank in Hrun by auto; injection Hrun as <-;
           cbn [session make_state];
           assert (session B st !! "db" = None) as ->
             by (destruct (session B st !! "db") eqn:Hdb; [|done];
                 exfalso; eapply path_selected_not_blank; [apply Hdp|]; eauto);
           destruct (sending i); rewrite app_nil_r;
           apply history_of_ext; by rewrite with_default_other.
      rewrite (interact_chat i path) in Hrun by done. cbv zeta in Hrun.
      injection Hrun as <-.
      destruct (sending i); [destruct (session B st !! "db") as [db|];
        [destruct (answering B db (typed i))|]|]; cbn [session make_state];
        rewrite ?app_nil_r; try by apply history_of_default.
      unfold history_of at 1. by rewrite lookup_insert_eq.
  - unfold answered. destruct (is_selection i); [simpl; lia|].
    destruct (sending i); [|simpl; lia].
    destruct (session B st !! "db") as [db|]; [|simpl; lia].
    destruct (answering B db (typed i)); simpl; lia.
  - intros Hisel. destruct Hp as [Hp|[Hp|(path & Hin & Hp)]].
    1,2: rewrite interact_blank in Hrun by auto; injection Hrun as <-;
         cbn [session make_state]; rewrite with_default_same;
         by rewrite with_default_other.
    rewrite (interact_chat i path) in Hrun by done. cbv zeta in Hrun.
    injection Hrun as <-. rewrite Hp. cbn [default from_option id].
    destruct (sending i); [destruct (session B st !! "db") as [db|] eqn:Hdb;
      [destruct (answering B db (typed i))|]|]; cbn [session make_state];
      rewrite ?with_default_other by done; rewrite ?lookup_insert_ne by done;
      by rewrite ?Hdb.
Qed.




(** The prompt is one fixed text, the same for every question:
    [create_prompt] takes no argument and passes [prompt_template] to the
    library.  The text in front of the context block is three sentences
    and the fallback sentence in quotes; then come the passages between
    context tags and the question. *)
Lemma create_prompt_sends_fixed_text :
  (forall s l,
     create_prompt B (St s l)
     = (outcome_of_result (ChatPromptTemplate_from_template B prompt_template),
        St s (l ++ [Called B (call_from_template B prompt_template)])))
  /\ instructions_of prompt_template
     = nl +:+ "    You are an assistant who provides answers to the questions of the user. "
       +:+ nl
       +:+ "    Get the information from the pdf and provide correct and precise answers. "
       +:+ nl
       +:+ "    If you don't know the answer then say "
       +:+ dquote +:+ fallback_sentence +:+ dquote +:+ nl +:+ "    "
  /\ prompt_template
     = instructions_of prompt_template
       +:+ "<context>" +:+ nl +:+ "    {context}" +:+ nl +:+ "    </context>" +:+ nl
       +:+ "    Question: {input}" +:+ nl +:+ "    ".
Proof.
  split.
  - intros s l. exec. by destruct (ChatPromptTemplate_from_template B prompt_template).
  - split; by vm_compute.
Qed.

(** ** Further properties of the script *)

Lemma interact_first_run i st :
  interact B 2 i st
  = match run_streamlit B i (arrival B i st) with
    | (Halt RerunException, st') => script_runs B 1 (released i) st'
    | (_, st') => Some st'
    end.
Proof. reflexivity. Qed.

(** X1. An interaction always settles after at most two runs of the script:
    the run that follows a rerun request never asks for another one,
    whatever the session holds, so two runs give a state and more fuel
    gives the same state. *)
Theorem interaction_settles_in_two_runs :
  forall fuel i st,
    fst (run_streamlit B (released i) st) ≠ Halt RerunException
    /\ exists st',
         interact B 2 i st = Some st' /\ interact B (S (S fuel)) i st = Some st'.
Proof.
  intros fuel i st. split; [apply released_no_rerun|].
  destruct (interact_enough fuel i st) as [Heq [st' Hst']].
  exists st'. split; [done|]. by rewrite Heq.
Qed.

(** X2. Send with an empty question does nothing: the page is shown as it
    is, without the warning and without any library call, and the session
    stays as it was, whether or not an index is stored. *)
Theorem empty_question_is_ignored :
  forall st i,
    reachable B st ->
    valid_input B st i = true ->
    pressed i = Some "Send" ->
    typed i = "" ->
    interact B 2 i st
    = Some (St (session B st)
               (log B st ++ [Received B i] ++ chat_page B (session B st)))
    /\ existsb (fun e => is_call B e || is_warning B e) (chat_page B (session B st)) = false.
Proof.
  intros st i Hreach Hvalid Hp Hq.
  pose proof (reachable_consistent st Hreach) as Hc.
  unfold valid_input in Hvalid. rewrite Hp in Hvalid.
  destruct (consistent_send B st Hc Hvalid) as [(path & _ & Hpath) Hhist].
  split.
  - rewrite (interact_chat i path) by
      (done || apply (consistent_history B st Hc) || by apply send_is_not_selection).
    cbv zeta. unfold sending. rewrite Hq. cbn [truthy]. rewrite andb_false_r.
    by rewrite with_default_present.
  - unfold chat_page. rewrite !existsb_app.
    assert (existsb (fun e => is_call B e || is_warning B e)
              (history_events B (history_of B (session B st))) = false) as ->.
    { induction (history_of B (session B st)) as [|c h IH]; [done|]. simpl. apply IH. }
    done.
Qed.

(** X3. When the chat model cannot be set up (for instance because the
    environment has no GROQ_API_KEY), a submitted question ends the run
    with that exception right after the one call of [ChatGroq], made with
    the key from the environment and the model "mixtral-8x7b-32768": no
    prompt, chain or invocation follows, there is no rerun, and the session
    with its history is unchanged. *)
Theorem failed_model_setup_keeps_session :
  forall st i e,
    reachable B st ->
    valid_input B st i = true ->
    pressed i = Some "Send" ->
    typed i ≠ "" ->
    is_Some (session B st !! "db") ->
    ChatGroq B (os_getenv B "GROQ_API_KEY") "mixtral-8x7b-32768" = Raise e ->
    let st' :=
      St (session B st)
         (log B st ++ [Received B i] ++ chat_page B (session B st)
          ++ [Called B (call_ChatGroq B (os_getenv B "GROQ_API_KEY") "mixtral-8x7b-32768")]) in
    run_streamlit B i (arrival B i st) = (Halt (Exception e), st')
    /\ interact B 2 i st = Some st'.
Proof.
  intros st i e Hreach Hvalid Hp Hq [db Hdb] Hllm st'.
  pose proof (reachable_consistent st Hreach) as Hc.
  unfold valid_input in Hvalid. rewrite Hp in Hvalid.
  destruct (consistent_send B st Hc Hvalid) as [(path & _ & Hpath) Hhist].
  assert (run_streamlit B i (arrival B i st) = (Halt (Exception e), st')) as Hrun.
  { unfold arrival. rewrite (run_streamlit_chat i path) by
      (done || apply (consistent_history B st Hc) || by apply send_is_not_selection).
    cbv zeta. fold (sending i). rewrite sending_send by done. rewrite Hdb.
    unfold answering, answering_calls, groq_api_key. rewrite Hllm. cbn [result_bind].
    rewrite with_default_present by done. unfold st'. by rewrite <- !app_assoc. }
  split; [exact Hrun|].
  by rewrite interact_first_run, Hrun.
Qed.

(** X4. When every call of the answering flow succeeds but the response of
    the chain has no "answer" entry, [response['answer']] raises
    [KeyError]: the run ends there after the six library calls, nothing is
    appended to the history and the session is unchanged. *)
Theorem missing_answer_raises_key_error :
  forall st i store llm prompt doc_chain response,
    reachable B st ->
    valid_input B st i = true ->
    pressed i = Some "Send" ->
    typed i ≠ "" ->
    session B st !! "db" = Some (VDb B store) ->
    ChatGroq B (os_getenv B "GROQ_API_KEY") "mixtral-8x7b-32768" = Ok llm ->
    ChatPromptTemplate_from_template B prompt_template = Ok prompt ->
    create_stuff_documents_chain B llm prompt = Ok doc_chain ->
    let chain := create_retrieval_chain B (as_retriever B store) doc_chain in
    chain_invoke B chain (question_arg B (typed i)) = Ok response ->
    response !! "answer" = None ->
    let st' :=
      St (session B st)
         (log B st ++ [Received B i] ++ chat_page B (session B st)
          ++ [ Called B (call_ChatGroq B (os_getenv B "GROQ_API_KEY") "mixtral-8x7b-32768");
               Called B (call_from_template B prompt_template);
               Called B (call_create_stuff_documents_chain B llm prompt);
               Called B (call_as_retriever B store);
               Called B (call_create_retrieval_chain B (as_retriever B store) doc_chain);
               Called B (call_invoke B chain (question_arg B (typed i))) ]) in
    run_streamlit B i (arrival B i st) = (Halt (Exception (KeyError "answer")), st')
    /\ interact B 2 i st = Some st'.
Proof.
  intros st i store llm prompt doc_chain response Hreach Hvalid Hp Hq Hdb Hllm Hprompt
    Hdoc chain Hinvoke Hanswer st'.
  pose proof (reachable_consistent st Hreach) as Hc.
  unfold valid_input in Hvalid. rewrite Hp in Hvalid.
  destruct (consistent_send B st Hc Hvalid) as [(path & _ & Hpath) Hhist].
  assert (run_streamlit B i (arrival B i st)
          = (Halt (Exception (KeyError "answer")), st')) as Hrun.
  { unfold arrival. rewrite (run_streamlit_chat i path) by
      (done || apply (consistent_history B st Hc) || by apply send_is_not_selection).
    cbv zeta. fold (sending i). rewrite sending_send by done. rewrite Hdb.
    unfold answering, answering_calls, built_chain, groq_api_key. subst chain.
    rewrite Hllm. cbn [result_bind]. rewrite Hprompt. cbn [result_bind].
    rewrite Hdoc. cbn [result_bind]. rewrite Hinvoke. cbn [result_bind].
    rewrite Hanswer. rewrite with_default_present by done.
    unfold st'. by rewrite <- !app_assoc. }
  split; [exact Hrun|].
  by rewrite interact_first_run, Hrun.
Qed.

(** X5. The ingestion pipeline stops at the first library call that raises:
    the later stages are not called, the exception is the one the failing
    call raised, and the session is not touched by [preload_data]. *)
Theorem ingestion_stops_at_first_failure :
  (forall path e s l,
     PyPDFLoader_load B path = Raise e ->
     preload_data B (VStr B path) (St s l)
     = (Halt (Exception e), St s (l ++ [Called B (call_PyPDFLoader_load B path)])))
  /\ (forall path docs e s l,
        PyPDFLoader_load B path = Ok docs ->
        RecursiveCharacterTextSplitter_split_documents B 1000 200 docs = Raise e ->
        preload_data B (VStr B path) (St s l)
        = (Halt (Exception e),
           St s (l ++ [ Called B (call_PyPDFLoader_load B path);
                        Called B (call_split_documents B 1000 200 docs) ])))
  /\ (forall path docs chunks e s l,
        PyPDFLoader_load B path = Ok docs ->
        RecursiveCharacterTextSplitter_split_documents B 1000 200 docs = Ok chunks ->
        FAISS_from_documents B chunks (OllamaEmbeddings B) = Raise e ->
        preload_data B (VStr B path) (St s l)
        = (Halt (Exception e),
           St s (l ++ [ Called B (call_PyPDFLoader_load B path);
                        Called B (call_split_documents B 1000 200 docs);
                        Called B (call_FAISS_from_documents B chunks) ]))).
Proof.
  split; [|split].
  - intros path e s l Hload. rewrite preload_data_run.
    unfold pipeline, pipeline_calls. by rewrite Hload.
  - intros path docs e s l Hload Hsplit. rewrite preload_data_run.
    unfold pipeline, pipeline_calls. rewrite Hload. cbn [result_bind]. by rewrite Hsplit.
  - intros path docs chunks e s l Hload Hsplit Hindex. rewrite preload_data_run.
    unfold pipeline, pipeline_calls. rewrite Hload. cbn [result_bind].
    rewrite Hsplit. cbn [result_bind]. by rewrite Hindex.
Qed.

(** X6. A document click whose PDF cannot be loaded still switches the
    path, leaves no index behind and keeps the chat history; the run ends
    at the failing call, so only the page top and the sidebar up to the
    clicked button are shown: no rerun, no history, no question box. *)
Theorem failed_selection_shows_no_chat_page :
  forall st i label key path e,
    reachable B st ->
    pressed i = Some label ->
    sidebar_key label = Some key ->
    pdf_paths !! key = Some path ->
    PyPDFLoader_load B path = Raise e ->
    exists st',
      interact B 2 i st = Some st'
      /\ run_streamlit B i (arrival B i st) = (Halt (Exception e), st')
      /\ session B st' !! "pdf_path" = Some (VStr B path)
      /\ session B st' !! "db" = None
      /\ session B st' !! "chat_history" = session B st !! "chat_history"
      /\ log B st'
         = log B st ++ [Received B i] ++ page_top B
           ++ sidebar_until B label sidebar_buttons
           ++ [Called B (call_PyPDFLoader_load B path)].
Proof.
  intros st i label key path e Hreach Hp Hk Hpath Hload.
  pose proof (reachable_consistent st Hreach) as Hc.
  assert (pipeline B path = Raise e) as Hpipe by (unfold pipeline; by rewrite Hload).
  eexists. split; [|split].
  - rewrite (interact_select i label key path) by
      (done || apply (consistent_history B st Hc)).
    cbv zeta. rewrite Hpipe. reflexivity.
  - unfold arrival. rewrite (run_streamlit_select i label key path) by done.
    rewrite Hpipe. by rewrite <- !app_assoc.
  - cbn [session log make_state]. repeat split.
    + apply select_session_path.
    + rewrite select_session_db. by rewrite Hpipe.
    + by rewrite select_session_other.
    + unfold pipeline_calls. by rewrite Hload.
Qed.

(** *** What an interaction does to the session, case by case *)

Lemma interact_session i st st' :
  consistent B st ->
  interact B 2 i st = Some st' ->
  let s := session B st in
  (exists label key path,
     pressed i = Some label /\ sidebar_key label = Some key
     /\ pdf_paths !! key = Some path /\ path ∈ selectable_paths
     /\ session B st'
        = match pipeline B path with
          | Ok _ => with_default B "chat_history" (VHistory B []) (select_session B path s)
          | Raise _ => select_session B path s
          end)
  \/ (is_selection i = false
      /\ (s !! "pdf_path" = None \/ s !! "pdf_path" = Some (VNone B))
      /\ session B st' = with_default B "pdf_path" (VNone B) s)
  \/ (is_selection i = false
      /\ path_selected B s
      /\ (session B st' = with_default B "chat_history" (VHistory B []) s
          \/ exists db a,
               sending i = true /\ s !! "db" = Some db
               /\ answering B db (typed i) = Ok a
               /\ session B st'
                  = <["chat_history" :=
                        VHistory B (history_of B s
                                    ++ [ {| question := typed i; answer := a |} ])]> s)).
Proof.
  intros Hc Hrun. pose proof Hc as [Hp Hh Hd Hdp Hsel Hs Hf]. cbv zeta.
  destruct (is_selection i) eqn:Hisel.
  - left. destruct (is_selection_pressed i Hisel) as (label & key & Hpr & Hk).
    destruct (sidebar_key_path label key Hk) as (path & Hpath & Hin).
    exists label, key, path. repeat (split; [done|]).
    rewrite (interact_select i label key path) in Hrun by done. cbv zeta in Hrun.
    injection Hrun as <-. by destruct (pipeline B path).
  - right. destruct Hp as [Hp|[Hp|Hp]].
    1,2: left; rewrite interact_blank in Hrun by auto; injection Hrun as <-; auto.
    right. split; [done|]. split; [done|].
    destruct Hp as (path & Hin & Hp).
    rewrite (interact_chat i path) in Hrun by done. cbv zeta in Hrun.
    injection Hrun as <-.
    destruct (sending i) eqn:Hsend; [|by left].
    destruct (session B st !! "db") as [db|] eqn:Hdb; [|by left].
    destruct (answering B db (typed i)) as [a|e] eqn:Ha; [|by left].
    right. by exists db, a.
Qed.

Lemma pipeline_ok path store :
  pipeline B path = Ok store ->
  exists docs chunks,
    PyPDFLoader_load B path = Ok docs
    /\ RecursiveCharacterTextSplitter_split_documents B 1000 200 docs = Ok chunks
    /\ FAISS_from_documents B chunks (OllamaEmbeddings B) = Ok store.
Proof.
  unfold pipeline.
  destruct (PyPDFLoader_load B path) as [docs|]; [|done]. cbn [result_bind].
  destruct (RecursiveCharacterTextSplitter_split_documents B 1000 200 docs)
    as [chunks|] eqn:Hsplit; [|done]. cbn [result_bind].
  intros Hindex. by exists docs, chunks.
Qed.

Lemma pipeline_raise path e : pipeline B path = Raise e -> raised_by_library B e.
Proof.
  unfold pipeline, raised_by_library.
  destruct (PyPDFLoader_load B path) as [docs|e1] eqn:Hload; cbn [result_bind].
  - destruct (RecursiveCharacterTextSplitter_split_documents B 1000 200 docs)
      as [chunks|e2] eqn:Hsplit; cbn [result_bind].
    + intros Hindex. right; right; left. by exists chunks.
    + intros [= ->]. right; left. by exists docs.
  - intros [= ->]. left. by exists path.
Qed.

Lemma answering_raise store q e :
  answering B (VDb B store) q = Raise e ->
  raised_by_library B e
  \/ (e = KeyError "answer"
      /\ exists chain response,
           chain_invoke B chain (question_arg B q) = Ok response
           /\ response !! "answer" = None).
Proof.
  unfold answering, raised_by_library, groq_api_key.
  destruct (ChatGroq B _ _) as [llm|e1] eqn:Hllm; cbn [result_bind].
  2: { intros [= ->]. left. by do 3 right; left. }
  destruct (ChatPromptTemplate_from_template B _) as [prompt|e2] eqn:Hprompt;
    cbn [result_bind].
  2: { intros [= ->]. left. by do 4 right; left. }
  destruct (create_stuff_documents_chain B llm prompt) as [doc_chain|e3] eqn:Hdoc;
    cbn [result_bind].
  2: { intros [= ->]. left. do 5 right; left. by exists llm, prompt. }
  destruct (chain_invoke B _ _) as [response|e4] eqn:Hinvoke; cbn [result_bind].
  2: { intros [= ->]. left. do 6 right. by eexists _, _. }
  destruct (response !! "answer") as [a|] eqn:Hanswer; [done|].
  intros [= <-]. right. split; [done|]. by eexists _, _.
Qed.

(** The index in the session was built from the path in the session. *)
Lemma interact_index_matches i st st' :
  consistent B st ->
  index_matches_path B (session B st) ->
  interact B 2 i st = Some st' ->
  index_matches_path B (session B st').
Proof.
  intros Hc Hm Hrun.
  destruct (interact_session i st st' Hc Hrun)
    as [(label & key & path & _ & _ & _ & _ & ->)
       |[(_ & Hblank & ->)|(_ & Hsel & [->|(db & a & _ & _ & _ & ->)])]];
    intros v Hv.
  - destruct (pipeline B path) as [store|e] eqn:Hpipe.
    + rewrite with_default_other in Hv by done.
      rewrite select_session_db, Hpipe in Hv. injection Hv as <-.
      destruct (pipeline_ok path store Hpipe) as (docs & chunks & ? & ? & ?).
      exists path, docs, chunks, store.
      rewrite with_default_other by done. by rewrite select_session_path.
    + by rewrite select_session_db, Hpipe in Hv.
  - rewrite with_default_other in Hv by done.
    exfalso. eapply path_selected_not_blank; [|exact Hblank].
    apply (consistent_index_path B st Hc). by rewrite Hv.
  - rewrite with_default_other in Hv by done.
    destruct (Hm v Hv) as (path & docs & chunks & store & ? & ? & ? & ? & ?).
    exists path, docs, chunks, store. by rewrite with_default_other.
  - rewrite lookup_insert_ne in Hv by done.
    destruct (Hm v Hv) as (path & docs & chunks & store & ? & ? & ? & ? & ?).
    exists path, docs, chunks, store. by rewrite lookup_insert_ne.
Qed.

Lemma interact_path_selected i st st' :
  consistent B st ->
  path_selected B (session B st) ->
  interact B 2 i st = Some st' ->
  path_selected B (session B st').
Proof.
  intros Hc Hsel Hrun.
  destruct (interact_session i st st' Hc Hrun)
    as [(label & key & path & _ & _ & _ & Hin & ->)
       |[(_ & Hblank & _)|(_ & _ & [->|(db & a & _ & _ & _ & ->)])]].
  - exists path. split; [done|].
    destruct (pipeline B path); rewrite ?with_default_other by done;
      apply select_session_path.
  - exfalso. by eapply path_selected_not_blank.
  - destruct Hsel as (path & ? & ?). exists path.
    by rewrite with_default_other.
  - destruct Hsel as (path & ? & ?). exists path.
    by rewrite lookup_insert_ne.
Qed.

Lemma interact_history_prefix i st st' :
  consistent B st ->
  interact B 2 i st = Some st' ->
  history_of B (session B st) `prefix_of` history_of B (session B st').
Proof.
  intros Hc Hrun. pose proof (consistent_history B st Hc) as Hh.
  destruct (interact_session i st st' Hc Hrun)
    as [(label & key & path & _ & _ & _ & _ & ->)
       |[(_ & _ & ->)|(_ & _ & [->|(db & a & _ & _ & _ & ->)])]].
  - assert (history_of B (select_session B path (session B st))
            = history_of B (session B st)) as Heq
      by (apply history_of_ext; by rewrite select_session_other).
    destruct (pipeline B path).
    + rewrite history_of_default by by apply history_typed_select. by rewrite Heq.
    + by rewrite Heq.
  - rewrite (history_of_ext (session B st)
               (with_default B "pdf_path" (VNone B) (session B st)));
      [done|]. by rewrite with_default_other.
  - by rewrite history_of_default.
  - unfold history_of at 2. rewrite lookup_insert_eq. by apply prefix_app_r.
Qed.

(** A relation that every interaction respects holds along whole sessions. *)
Lemma play_steps (R : state B -> state B -> Prop) :
  (forall st, R st st) ->
  (forall st1 st2 st3, R st1 st2 -> R st2 st3 -> R st1 st3) ->
  (forall st i st',
     reachable B st -> valid_input B st i = true ->
     interact B 2 i st = Some st' -> R st st') ->
  forall fuel inputs st st',
    reachable B st -> play B fuel inputs st = Some st' -> R st st'.
Proof.
  intros Hrefl Htrans Hstep fuel inputs.
  induction inputs as [|i inputs IH]; intros st st' Hreach Hplay; simpl in Hplay.
  - injection Hplay as <-. apply Hrefl.
  - destruct (valid_input B st i) eqn:Hvalid; [|done].
    destruct (interact B fuel i st) as [st1|] eqn:Hrun; [|done].
    apply (Htrans st st1 st').
    + apply (Hstep st i st1); [done|done|]. by eapply interact_fuel.
    + apply IH; [|done]. by eapply reachable_interact.
Qed.

(** X7. The stored index always belongs to the selected document: in every
    reachable state, whatever is stored under [db] is the index that the
    three pipeline calls build from the path stored under [pdf_path].  An
    index of a document selected earlier is never left behind. *)
Theorem stored_index_matches_selected_document :
  forall st v,
    reachable B st ->
    session B st !! "db" = Some v ->
    exists path docs chunks store,
      session B st !! "pdf_path" = Some (VStr B path)
      /\ PyPDFLoader_load B path = Ok docs
      /\ RecursiveCharacterTextSplitter_split_documents B 1000 200 docs = Ok chunks
      /\ FAISS_from_documents B chunks (OllamaEmbeddings B) = Ok store
      /\ v = VDb B store.
Proof.
  intros st v Hreach. revert v.
  change (index_matches_path B (session B st)).
  induction Hreach as [|st st' i fuel Hreach IH _ Hrun].
  - intros v Hv. cbn [session initial_state] in Hv. by rewrite lookup_empty in Hv.
  - eapply interact_index_matches; [by apply reachable_consistent|done|].
    by eapply interact_fuel.
Qed.

(** X8. Once a document is selected, one stays selected: no sequence of
    interactions brings [pdf_path] back to [None] or removes it. *)
Theorem selection_is_never_undone :
  forall fuel inputs st st',
    reachable B st ->
    play B fuel inputs st = Some st' ->
    path_selected B (session B st) ->
    path_selected B (session B st').
Proof.
  intros fuel inputs st st' Hreach Hplay.
  apply (play_steps (fun a b =>
           path_selected B (session B a) -> path_selected B (session B b)))
    with (fuel := fuel) (inputs := inputs); try done.
  - intros st1 st2 st3 H12 H23 H1. auto.
  - intros st1 i st2 Hr _ Hrun Hsel.
    eapply interact_path_selected; [by apply reachable_consistent|done|done].
Qed.

(** X9. What the script stores under its three keys keeps its kind: in
    every reachable state [pdf_path], when present, holds [None] or a
    string, [db] holds an index and [chat_history] holds a list of
    question and answer pairs.  So the reads of lines 183-201 (the test of
    the path, the retriever made from [db], the loop over and the append
    to the history) never meet a value of another kind. *)
Theorem session_values_are_typed :
  forall st,
    reachable B st ->
    values_typed B (session B st).
Proof.
  intros st Hreach.
  pose proof (reachable_consistent st Hreach) as [Hp Hh Hd _ _ _ _].
  split; [|split]; intros v Hv.
  - destruct Hp as [Hp|[Hp|(path & _ & Hp)]]; rewrite Hp in Hv;
      [done|left|right; exists path]; congruence.
  - destruct Hd as [Hd|[store Hd]]; rewrite Hd in Hv; [done|].
    exists store. congruence.
  - destruct Hh as [Hh|[h Hh]]; rewrite Hh in Hv; [done|].
    exists h. congruence.
Qed.

(** X10. Over a whole session the chat history only grows at its end: the
    history of an earlier state is a prefix of the history of every later
    one.  In particular switching to another document keeps the questions
    and answers given for the previous one. *)
Theorem history_survives_the_session :
  forall fuel inputs st st',
    reachable B st ->
    play B fuel inputs st = Some st' ->
    history_of B (session B st) `prefix_of` history_of B (session B st').
Proof.
  intros fuel inputs st st' Hreach Hplay.
  apply (play_steps (fun a b =>
           history_of B (session B a) `prefix_of` history_of B (session B b)))
    with (fuel := fuel) (inputs := inputs); try done.
  - intros st1 st2 st3 H12 H23. by etrans.
  - intros st1 i st2 Hr _ Hrun.
    eapply interact_history_prefix; [by apply reachable_consistent|done].
Qed.

(** X11. As long as no document is selected, an interaction that is not a
    click on a document button shows the page top and the five sidebar
    buttons and nothing else, calls no library, and changes nothing in the
    session except that a missing [pdf_path] becomes [None].  The Send
    button cannot be what was clicked. *)
Theorem no_selection_shows_only_the_sidebar :
  forall st i,
    reachable B st ->
    valid_input B st i = true ->
    is_selection i = false ->
    ~ path_selected B (session B st) ->
    interact B 2 i st
    = Some (St (<["pdf_path" := VNone B]> (session B st))
               (log B st ++ [Received B i] ++ page_top B ++ sidebar_all B))
    /\ existsb (fun e => is_call B e || in_question_flow B e) (page_top B ++ sidebar_all B)
       = false
    /\ pressed i ≠ Some "Send".
Proof.
  intros st i Hreach Hvalid Hisel Hnot.
  pose proof (reachable_consistent st Hreach) as Hc.
  assert (session B st !! "pdf_path" = None
          \/ session B st !! "pdf_path" = Some (VNone B)) as Hblank.
  { destruct (consistent_path B st Hc) as [H|[H|H]]; [by left|by right|done]. }
  split; [|split].
  - rewrite interact_blank by done. do 2 f_equal.
    unfold with_default. destruct Hblank as [H|H]; rewrite H; [done|].
    by rewrite insert_id.
  - done.
  - intros Hp. apply Hnot. unfold valid_input in Hvalid. rewrite Hp in Hvalid.
    by destruct (consistent_send B st Hc Hvalid).
Qed.

(** X12. The script does not trip over its own session.  In a reachable
    state a run ends normally, or asks for a rerun, in which case the next
    run ends normally, or ends with an exception that a library call
    raised; the one exception of the script's own is the [KeyError] for a
    chain response without an "answer" entry. *)
Theorem only_library_errors_escape :
  forall st i o st1,
    reachable B st ->
    run_streamlit B i (arrival B i st) = (o, st1) ->
    match o with
    | Done _ => True
    | Halt RerunException => exists st2, run_streamlit B (released i) st1 = (Done tt, st2)
    | Halt (Exception e) =>
        raised_by_library B e
        \/ (e = KeyError "answer"
            /\ exists chain response,
                 chain_invoke B chain (question_arg B (typed i)) = Ok response
                 /\ response !! "answer" = None)
    end.
Proof.
  intros st i o st1 Hreach Hrun.
  pose proof (reachable_consistent st Hreach) as Hc.
  pose proof Hc as [Hp Hh Hd Hdp Hsel Hs Hf].
  unfold arrival in Hrun.
  destruct (is_selection i) eqn:Hisel.
  - destruct (is_selection_pressed i Hisel) as (label & key & Hpr & Hk).
    destruct (sidebar_key_path label key Hk) as (path & Hpath & Hin).
    rewrite (run_streamlit_select i label key path) in Hrun by done.
    destruct (pipeline B path) as [store|e] eqn:Hpipe; injection Hrun as <- <-.
    + eexists. apply (run_streamlit_released i path).
      * apply select_session_path.
      * by apply history_typed_select.
    + left. by eapply pipeline_raise.
  - destruct Hp as [Hp|[Hp|(path & Hin & Hp)]].
    1,2: rewrite run_streamlit_blank in Hrun by auto; by injection Hrun as <- _.
    rewrite (run_streamlit_chat i path) in Hrun by done. cbv zeta in Hrun.
    destruct (button_value i "Send" && truthy (typed i)); [|by injection Hrun as <- _].
    destruct (session B st !! "db") as [db|] eqn:Hdb; [|by injection Hrun as <- _].
    destruct Hd as [Hd|[store Hd]]; [congruence|].
    assert (db = VDb B store) as -> by congruence.
    destruct (answering B (VDb B store) (typed i)) as [a|e] eqn:Ha;
      injection Hrun as <- <-.
    + eexists. apply (run_streamlit_released i path).
      * by rewrite lookup_insert_ne.
      * right. eexists. apply lookup_insert_eq.
    + by apply answering_raise in Ha.
Qed.

Lemma send_failure st i db e :
  reachable B st ->
  valid_input B st i = true ->
  pressed i = Some "Send" ->
  typed i ≠ "" ->
  session B st !! "db" = Some db ->
  answering B db (typed i) = Raise e ->
  let st' :=
    St (session B st)
       (log B st ++ [Received B i] ++ chat_page B (session B st)
        ++ answering_calls B db (typed i)) in
  run_streamlit B i (arrival B i st) = (Halt (Exception e), st')
  /\ interact B 2 i st = Some st'.
Proof.
  intros Hreach Hvalid Hp Hq Hdb Ha st'.
  pose proof (reachable_consistent st Hreach) as Hc.
  unfold valid_input in Hvalid. rewrite Hp in Hvalid.
  destruct (consistent_send B st Hc Hvalid) as [(path & _ & Hpath) Hhist].
  assert (run_streamlit B i (arrival B i st) = (Halt (Exception e), st')) as Hrun.
  { unfold arrival. rewrite (run_streamlit_chat i path) by
      (done || apply (consistent_history B st Hc) || by apply send_is_not_selection).
    cbv zeta. fold (sending i). rewrite sending_send by done. rewrite Hdb, Ha.
    rewrite with_default_present by done. unfold st'. by rewrite <- !app_assoc. }
  split; [exact Hrun|]. by rewrite interact_first_run, Hrun.
Qed.

(** X13. The answering flow stops at the first library call that raises.
    With the chat model set up: when the prompt cannot be built, no chain
    is built; when the document chain cannot be built, the retriever is not
    asked for and nothing is invoked; when the invocation itself fails, all
    six calls were made.  In each case the run ends with the exception of
    the failing call, without a rerun, and the session with its history is
    unchanged. *)
Theorem answering_stops_at_first_failure :
  forall st i store llm,
    reachable B st ->
    valid_input B st i = true ->
    pressed i = Some "Send" ->
    typed i ≠ "" ->
    session B st !! "db" = Some (VDb B store) ->
    ChatGroq B (os_getenv B "GROQ_API_KEY") "mixtral-8x7b-32768" = Ok llm ->
    let ends_with e calls :=
      let st' :=
        St (session B st)
           (log B st ++ [Received B i] ++ chat_page B (session B st)
            ++ Called B (call_ChatGroq B (os_getenv B "GROQ_API_KEY") "mixtral-8x7b-32768")
               :: calls) in
      run_streamlit B i (arrival B i st) = (Halt (Exception e), st')
      /\ interact B 2 i st = Some st' in
    (forall e,
       ChatPromptTemplate_from_template B prompt_template = Raise e ->
       ends_with e [Called B (call_from_template B prompt_template)])
    /\ (forall prompt e,
          ChatPromptTemplate_from_template B prompt_template = Ok prompt ->
          create_stuff_documents_chain B llm prompt = Raise e ->
          ends_with e [ Called B (call_from_template B prompt_template);
                        Called B (call_create_stuff_documents_chain B llm prompt) ])
    /\ (forall prompt doc_chain e,
          ChatPromptTemplate_from_template B prompt_template = Ok prompt ->
          create_stuff_documents_chain B llm prompt = Ok doc_chain ->
          chain_invoke B (create_retrieval_chain B (as_retriever B store) doc_chain)
            (question_arg B (typed i)) = Raise e ->
          ends_with e
            [ Called B (call_from_template B prompt_template);
              Called B (call_create_stuff_documents_chain B llm prompt);
              Called B (call_as_retriever B store);
              Called B (call_create_retrieval_chain B (as_retriever B store) doc_chain);
              Called B (call_invoke B
                          (create_retrieval_chain B (as_retriever B store) doc_chain)
                          (question_arg B (typed i))) ]).
Proof.
  intros st i store llm Hreach Hvalid Hp Hq Hdb Hllm ends_with.
  split; [|split].
  - intros e Hprompt.
    pose proof (send_failure st i (VDb B store) e Hreach Hvalid Hp Hq Hdb) as H.
    unfold answering, answering_calls, groq_api_key in H.
    rewrite Hllm in H. cbn [result_bind] in H. rewrite Hprompt in H.
    by apply H.
  - intros prompt e Hprompt Hdoc.
    pose proof (send_failure st i (VDb B store) e Hreach Hvalid Hp Hq Hdb) as H.
    unfold answering, answering_calls, groq_api_key in H.
    rewrite Hllm in H. cbn [result_bind] in H. rewrite Hprompt in H.
    cbn [result_bind] in H. rewrite Hdoc in H.
    by apply H.
  - intros prompt doc_chain e Hprompt Hdoc Hinvoke.
    pose proof (send_failure st i (VDb B store) e Hreach Hvalid Hp Hq Hdb) as H.
    unfold answering, answering_calls, built_chain, groq_api_key in H.
    rewrite Hllm in H. cbn [result_bind] in H. rewrite Hprompt in H.
    cbn [result_bind] in H. rewrite Hdoc in H. cbn [result_bind] in H.
    rewrite Hinvoke in H.
    by apply H.
Qed.

(** X14. The history is shown in the order it was stored, each question
    right before its answer: rendering a history of n pairs shows 2n
    widgets and nothing else, the k-th pair at positions 2k and 2k+1, and
    neither fails nor touches the session. *)
Theorem history_is_shown_in_order :
  forall h s l,
    exists shown,
      render_history B h (St s l) = (Done tt, St s (l ++ shown))
      /\ length shown = 2 * length h
      /\ forall k c,
           h !! k = Some c ->
           shown !! (2 * k) = Some (Shown B (st_markdown (user_message B c)))
           /\ shown !! (2 * k + 1) = Some (Shown B (st_markdown (bot_message B c))).
Proof.
  intros h s l. exists (history_events B h). split; [|split].
  - pose proof (render_history_run (C := unit) h (ret B) s l) as Hrun.
    unfold bind, ret in Hrun.
    by destruct (render_history B h (St s l)) as [[[]|sg] st1].
  - induction h as [|c h IH]; [done|]. simpl. rewrite IH. lia.
  - induction h as [|c0 h IH]; intros k c Hk; [done|].
    destruct k as [|k].
    + injection Hk as ->. done.
    + replace (2 * S k) with (S (S (2 * k))) by lia.
      replace (S (S (2 * k)) + 1) with (S (S (2 * k + 1))) by lia.
      by apply IH.
Qed.

End Runs.

(** ** The toy backends and the reachable states *)


Lemma play_reachable (B : Backend) fuel inputs st st' :
  reachable B st -> play B fuel inputs st = Some st' -> reachable B st'.
Proof.
  revert st. induction inputs as [|i inputs IH]; intros st Hreach Hplay; simpl in Hplay.
  - by injection Hplay as <-.
  - destruct (valid_input B st i) eqn:Hvalid; [|done].
    destruct (interact B fuel i st) as [st1|] eqn:Hrun; [|done].
    apply (IH st1); [|done]. by eapply reachable_interact.
Qed.

Lemma toy_after_reachable inputs :
  is_Some (play Toy.backend 2 inputs (initial_state Toy.backend)) ->
  reachable Toy.backend (Toy.after inputs).
Proof.
  intros [st Hst]. unfold Toy.after. rewrite Hst. simpl.
  eapply play_reachable; [apply reachable_initial|exact Hst].
Qed.

(** ** The statements at work on the toy backend *)

Lemma toy_reachable inputs :
  bool_decide (is_Some (play Toy.backend 2 inputs (initial_state Toy.backend))) = true ->
  reachable Toy.backend (Toy.after inputs).
Proof. intros H. apply toy_after_reachable. by apply bool_decide_eq_true in H. Qed.

Lemma answer_comes_from_retrieval_chain_witness :
  let st := Toy.after [Toy.idle ""; Toy.click "About College" ""] in
  let i := Toy.click "Send" "When?" in
  reachable Toy.backend st
  /\ session Toy.backend st !! "db"
     = Some (VDb Toy.backend ["The college was founded in 1946."; "It has nine departments."])
  /\ exists st',
       interact Toy.backend 2 i st = Some st'
       /\ history_of Toy.backend (session Toy.backend st')
          = [ {| question := "When?"; answer := inl "The college was founded in 1946." |} ]
       /\ drop (length (log Toy.backend st') - 4) (log Toy.backend st')
          = [ Shown Toy.backend (st_markdown
                "<div class='chat-box'><span class='user-message'>When?</span></div>");
              Shown Toy.backend (st_markdown
                "<div class='chat-box'><span class='bot-message'><strong>Bot:</strong> The college was founded in 1946.</span></div>");
              Shown Toy.backend (st_text_input "Enter your question:" "input"
                                   "Type your question here...");
              Shown Toy.backend (st_button "Send") ].
Proof.
  intros st i.
  assert (reachable Toy.backend st) as Hreach by (apply toy_reachable; vm_compute; reflexivity).
  split; [exact Hreach|]. split; [reflexivity|].
  destruct (proj2 (answer_comes_from_retrieval_chain Toy.backend) st i
              ["The college was founded in 1946."; "It has nine departments."]
              "mixtral-8x7b-32768" prompt_template prompt_template
              (<["answer" := inl "The college was founded in 1946."]>
                 (<["context" := inr ["The college was founded in 1946.";
                                      "It has nine departments."]]>
                    {[ "input" := inl "When?" ]}))
              (inl "The college was founded in 1946.")
              Hreach eq_refl) as [Hrun _];
    try reflexivity; [discriminate|].
  eexists. split; [exact Hrun|]. split; reflexivity.
Defined.

Lemma selection_runs_ingestion_pipeline_witness :
  let st := Toy.after [Toy.idle ""] in
  let i := Toy.click "About College" "" in
  let pages := ["The college was founded in 1946."; "It has nine departments."] in
  reachable Toy.backend st
  /\ PyPDFLoader_load Toy.backend "about_college.pdf" = Ok pages
  /\ RecursiveCharacterTextSplitter_split_documents Toy.backend 1000 200 pages = Ok pages
  /\ preload_data Toy.backend (VStr Toy.backend "about_college.pdf")
       (initial_state Toy.backend)
     = (Done pages,
        make_state Toy.backend ∅
          [ Called Toy.backend (call_PyPDFLoader_load Toy.backend "about_college.pdf");
            Called Toy.backend (call_split_documents Toy.backend 1000 200 pages);
            Called Toy.backend (call_FAISS_from_documents Toy.backend pages) ])
  /\ exists st',
       interact Toy.backend 2 i st = Some st'
       /\ session Toy.backend st' !! "pdf_path" = Some (VStr Toy.backend "about_college.pdf")
       /\ session Toy.backend st' !! "db" = Some (VDb Toy.backend pages).
Proof.
  intros st i pages.
  assert (reachable Toy.backend st) as Hreach by (apply toy_reachable; vm_compute; reflexivity).
  split; [exact Hreach|]. split; [reflexivity|]. split; [reflexivity|].
  split.
  { exact (proj1 (selection_runs_ingestion_pipeline Toy.backend)
             "about_college.pdf" pages pages pages ∅ [] eq_refl eq_refl eq_refl). }
  destruct (proj2 (selection_runs_ingestion_pipeline Toy.backend) st i
              "About College" "college_info" "about_college.pdf" pages pages pages
              Hreach eq_refl eq_refl eq_refl eq_refl eq_refl eq_refl)
    as (st' & Hrun & Hpath & Hdb & _).
  exists st'. repeat split; assumption.
Defined.

Lemma selected_path_is_one_of_five_witness :
  let st := Toy.after [Toy.idle ""; Toy.click "Fees Structure" ""] in
  reachable Toy.backend st
  /\ session Toy.backend st !! "pdf_path" = Some (VStr Toy.backend "feesstructure.pdf")
  /\ ((st = initial_state Toy.backend /\ session Toy.backend st !! "pdf_path" = None)
      \/ session Toy.backend st !! "pdf_path" = Some (VNone Toy.backend)
      \/ exists path, path ∈ selectable_paths
                      /\ session Toy.backend st !! "pdf_path" = Some (VStr Toy.backend path))
  /\ "cuttoffs.pdf" ∈ selectable_paths
  /\ exists label key,
       sidebar_key label = Some key /\ pdf_paths !! key = Some "cuttoffs.pdf".
Proof.
  intros st.
  assert (reachable Toy.backend st) as Hreach by (apply toy_reachable; vm_compute; reflexivity).
  assert ("cuttoffs.pdf" ∈ selectable_paths) as Hin
    by (unfold selectable_paths; simpl; do 3 apply list_elem_of_further;
        apply list_elem_of_here).
  split; [exact Hreach|]. split; [reflexivity|]. split.
  - exact (proj2 (proj2 (selected_path_is_one_of_five Toy.backend)) st Hreach).
  - split; [exact Hin|].
    exact (proj1 (proj2 (selected_path_is_one_of_five Toy.backend)) "cuttoffs.pdf" Hin).
Defined.

Lemma selection_replaces_index_witness :
  let st := Toy.after [Toy.idle ""; Toy.click "About College" ""] in
  let i := Toy.click "Admission Process" "" in
  reachable Toy.backend st
  /\ session Toy.backend st !! "db"
     = Some (VDb Toy.backend ["The college was founded in 1946."; "It has nine departments."])
  /\ select_document Toy.backend i "Admission Process" "admission_process" st
     = (Halt (Exception (LibraryError "File path is not a valid file or url")),
        make_state Toy.backend
          (delete "db" (<["pdf_path" := VStr Toy.backend "admissionprocess.pdf"]>
                          (session Toy.backend st)))
          (log Toy.backend st
           ++ [ Shown Toy.backend (st_sidebar_button "Admission Process");
                Called Toy.backend (call_PyPDFLoader_load Toy.backend "admissionprocess.pdf") ]))
  /\ exists st',
       interact Toy.backend 2 i st = Some st'
       /\ session Toy.backend st' !! "pdf_path"
          = Some (VStr Toy.backend "admissionprocess.pdf")
       /\ session Toy.backend st' !! "db" = None.
Proof.
  intros st i.
  assert (reachable Toy.backend st) as Hreach by (apply toy_reachable; vm_compute; reflexivity).
  split; [exact Hreach|]. split; [reflexivity|].
  split.
  { rewrite (state_eta Toy.backend st) at 1.
    rewrite (proj1 (selection_replaces_index Toy.backend) i
               "Admission Process" "admission_process" "admissionprocess.pdf"
               (session Toy.backend st) (log Toy.backend st) eq_refl eq_refl).
    reflexivity. }
  destruct (proj2 (selection_replaces_index Toy.backend) st i
              "Admission Process" "admission_process" "admissionprocess.pdf"
              Hreach eq_refl eq_refl eq_refl)
    as (st' & Hrun & Hpath & Hdb).
  exists st'. split; [exact Hrun|]. split; [exact Hpath|exact Hdb].
Defined.

Lemma question_flow_needs_selection_witness :
  let st := Toy.after [Toy.idle ""; Toy.click "About College" ""; Toy.click "Send" "When?"] in
  let s : gmap string (value Toy.backend) :=
    {[ "pdf_path" := VStr Toy.backend "about_college.pdf" ]} in
  let run := run_streamlit Toy.backend (Toy.idle "") (make_state Toy.backend s []) in
  reachable Toy.backend st
  /\ log Toy.backend st
     = take 30 (log Toy.backend st) ++ question_box Toy.backend :: drop 31 (log Toy.backend st)
  /\ (exists i, Received Toy.backend i ∈ take 30 (log Toy.backend st) /\ is_selection i = true)
  /\ question_box Toy.backend ∈ drop 0 (log Toy.backend (snd run))
  /\ exists selected,
       s !! "pdf_path" = Some selected /\ is_not_None Toy.backend selected = true.
Proof.
  intros st s run.
  assert (reachable Toy.backend st) as Hreach by (apply toy_reachable; vm_compute; reflexivity).
  assert (question_box Toy.backend ∈ drop 0 (log Toy.backend (snd run))) as Hshown
    by (do 10 apply list_elem_of_further; apply list_elem_of_here).
  split; [exact Hreach|]. split; [reflexivity|]. split.
  - exact (proj2 (question_flow_needs_selection Toy.backend) st
             (take 30 (log Toy.backend st)) (question_box Toy.backend)
             (drop 31 (log Toy.backend st)) Hreach eq_refl eq_refl).
  - split; [exact Hshown|].
    exact (proj1 (question_flow_needs_selection Toy.backend) (Toy.idle "") s []
             (fst run) (snd run) (question_box Toy.backend)
             (surjective_pairing run) Hshown eq_refl).
Defined.


Lemma send_without_index_warns_witness :
  let st := Toy.after [Toy.idle ""; Toy.click "Admission Process" ""; Toy.idle ""] in
  let i := Toy.click "Send" "When?" in
  reachable Toy.backend st
  /\ valid_input Toy.backend st i = true
  /\ session Toy.backend st !! "db" = None
  /\ interact Toy.backend 2 i st
     = Some (make_state Toy.backend (session Toy.backend st)
               (log Toy.backend st ++ [Received Toy.backend i]
                ++ chat_page Toy.backend (session Toy.backend st)
                ++ [Shown Toy.backend (st_warning "Please select a category first.")])).
Proof.
  intros st i.
  assert (reachable Toy.backend st) as Hreach by (apply toy_reachable; vm_compute; reflexivity).
  split; [exact Hreach|]. split; [reflexivity|]. split; [reflexivity|].
  refine (proj1 (send_without_index_warns Toy.backend st i Hreach eq_refl eq_refl _ eq_refl)).
  discriminate.
Defined.

Lemma chat_history_append_only_witness :
  let st := Toy.after [Toy.idle ""; Toy.click "About College" ""] in
  let i := Toy.click "Send" "When?" in
  let st' := Toy.after [Toy.idle ""; Toy.click "About College" ""; Toy.click "Send" "When?"] in
  reachable Toy.backend st
  /\ interact Toy.backend 2 i st = Some st'
  /\ history_of Toy.backend (session Toy.backend st) = []
  /\ history_of Toy.backend (session Toy.backend st')
     = [ {| question := "When?"; answer := inl "The college was founded in 1946." |} ].
Proof.
  intros st i st'.
  assert (reachable Toy.backend st) as Hreach by (apply toy_reachable; vm_compute; reflexivity).
  split; [exact Hreach|]. split; [reflexivity|]. split; [reflexivity|].
  exact (proj1 (chat_history_append_only Toy.backend st i st' Hreach eq_refl)).
Defined.

(** ** The further properties at work on the toy backends *)

Lemma variant_reachable (b : Backend) inputs :
  bool_decide (is_Some (play b 2 inputs (initial_state b))) = true ->
  reachable b (ToyVariants.after b inputs).
Proof.
  intros [st Hst]%bool_decide_eq_true. unfold ToyVariants.after. rewrite Hst. simpl.
  eapply play_reachable; [apply reachable_initial|exact Hst].
Qed.

Lemma empty_question_is_ignored_witness :
  let st := Toy.after [Toy.idle ""; Toy.click "About College" ""] in
  let i := Toy.click "Send" "" in
  reachable Toy.backend st
  /\ valid_input Toy.backend st i = true
  /\ interact Toy.backend 2 i st
     = Some (make_state Toy.backend (session Toy.backend st)
               (log Toy.backend st ++ [Received Toy.backend i]
                ++ chat_page Toy.backend (session Toy.backend st))).
Proof.
  intros st i.
  assert (reachable Toy.backend st) as Hreach by (apply toy_reachable; vm_compute; reflexivity).
  split; [exact Hreach|]. split; [reflexivity|].
  exact (proj1 (empty_question_is_ignored Toy.backend st i Hreach eq_refl eq_refl eq_refl)).
Defined.

Lemma failed_model_setup_keeps_session_witness :
  let b := ToyVariants.keyless in
  let st := ToyVariants.after b [Toy.idle ""; Toy.click "About College" ""] in
  let i := Toy.click "Send" "When?" in
  reachable b st
  /\ ChatGroq b (os_getenv b "GROQ_API_KEY") "mixtral-8x7b-32768"
     = Raise (LibraryError "Did not find groq_api_key")
  /\ interact b 2 i st
     = Some (make_state b (session b st)
               (log b st ++ [Received b i] ++ chat_page b (session b st)
                ++ [Called b (call_ChatGroq b None "mixtral-8x7b-32768")])).
Proof.
  intros b st i.
  assert (reachable b st) as Hreach by (apply variant_reachable; vm_compute; reflexivity).
  split; [exact Hreach|]. split; [reflexivity|].
  refine (proj2 (failed_model_setup_keeps_session b st i
                   (LibraryError "Did not find groq_api_key")
                   Hreach eq_refl eq_refl _ _ eq_refl)).
  - discriminate.
  - exists (VDb b ["The college was founded in 1946."; "It has nine departments."]).
    reflexivity.
Defined.

Lemma missing_answer_raises_key_error_witness :
  let b := ToyVariants.mute in
  let st := ToyVariants.after b [Toy.idle ""; Toy.click "About College" ""] in
  let i := Toy.click "Send" "When?" in
  reachable b st
  /\ history_of b (session b st) = []
  /\ exists st',
       run_streamlit b i (arrival b i st) = (Halt (Exception (KeyError "answer")), st')
       /\ interact b 2 i st = Some st'
       /\ history_of b (session b st') = [].
Proof.
  intros b st i.
  assert (reachable b st) as Hreach by (apply variant_reachable; vm_compute; reflexivity).
  split; [exact Hreach|]. split; [reflexivity|].
  eexists. split; [|split].
  - refine (proj1 (missing_answer_raises_key_error b st i
                     ["The college was founded in 1946."; "It has nine departments."]
                     "mixtral-8x7b-32768" prompt_template prompt_template
                     (<["context" := inr ["The college was founded in 1946.";
                                          "It has nine departments."]]>
                        {[ "input" := inl "When?" ]})
                     Hreach eq_refl eq_refl _ eq_refl eq_refl eq_refl eq_refl
                     eq_refl eq_refl)).
    discriminate.
  - reflexivity.
  - reflexivity.
Defined.

Lemma ingestion_stops_at_first_failure_witness :
  preload_data Toy.backend (VStr Toy.backend "admissionprocess.pdf")
    (initial_state Toy.backend)
  = (Halt (Exception (LibraryError "File path is not a valid file or url")),
     make_state Toy.backend ∅
       [Called Toy.backend (call_PyPDFLoader_load Toy.backend "admissionprocess.pdf")])
  /\ preload_data ToyVariants.blank (VStr ToyVariants.blank "about_college.pdf")
       (initial_state ToyVariants.blank)
     = (Halt (Exception (LibraryError "list index out of range")),
        make_state ToyVariants.blank ∅
          [ Called ToyVariants.blank
              (call_PyPDFLoader_load ToyVariants.blank "about_college.pdf");
            Called ToyVariants.blank (call_split_documents ToyVariants.blank 1000 200 []);
            Called ToyVariants.blank (call_FAISS_from_documents ToyVariants.blank []) ]).
Proof.
  split.
  - exact (proj1 (ingestion_stops_at_first_failure Toy.backend)
             "admissionprocess.pdf" (LibraryError "File path is not a valid file or url")
             ∅ [] eq_refl).
  - exact (proj2 (proj2 (ingestion_stops_at_first_failure ToyVariants.blank))
             "about_college.pdf" [] [] (LibraryError "list index out of range")
             ∅ [] eq_refl eq_refl eq_refl).
Defined.

Lemma failed_selection_shows_no_chat_page_witness :
  let st := Toy.after [Toy.idle ""; Toy.click "About College" ""] in
  let i := Toy.click "Admission Process" "" in
  reachable Toy.backend st
  /\ exists st',
       interact Toy.backend 2 i st = Some st'
       /\ session Toy.backend st' !! "pdf_path"
          = Some (VStr Toy.backend "admissionprocess.pdf")
       /\ session Toy.backend st' !! "db" = None
       /\ log Toy.backend st'
          = log Toy.backend st ++ [Received Toy.backend i] ++ page_top Toy.backend
            ++ [ Shown Toy.backend (st_sidebar_button "About College");
                 Shown Toy.backend (st_sidebar_button "Admission Process");
                 Called Toy.backend
                   (call_PyPDFLoader_load Toy.backend "admissionprocess.pdf") ].
Proof.
  intros st i.
  assert (reachable Toy.backend st) as Hreach by (apply toy_reachable; vm_compute; reflexivity).
  split; [exact Hreach|].
  destruct (failed_selection_shows_no_chat_page Toy.backend st i
              "Admission Process" "admission_process" "admissionprocess.pdf"
              (LibraryError "File path is not a valid file or url")
              Hreach eq_refl eq_refl eq_refl eq_refl)
    as (st' & Hrun & _ & Hpath & Hdb & _ & Hlog).
  exists st'. split; [exact Hrun|]. split; [exact Hpath|]. split; [exact Hdb|exact Hlog].
Defined.

Lemma stored_index_matches_selected_document_witness :
  let st := Toy.after [Toy.idle ""; Toy.click "About College" "";
                       Toy.click "Fees Structure" ""] in
  let v := VDb Toy.backend ["The tuition fee is 90000 per year."] in
  reachable Toy.backend st
  /\ session Toy.backend st !! "db" = Some v
  /\ exists path docs chunks store,
       session Toy.backend st !! "pdf_path" = Some (VStr Toy.backend path)
       /\ PyPDFLoader_load Toy.backend path = Ok docs
       /\ RecursiveCharacterTextSplitter_split_documents Toy.backend 1000 200 docs = Ok chunks
       /\ FAISS_from_documents Toy.backend chunks (OllamaEmbeddings Toy.backend) = Ok store
       /\ v = VDb Toy.backend store.
Proof.
  intros st v.
  assert (reachable Toy.backend st) as Hreach by (apply toy_reachable; vm_compute; reflexivity).
  split; [exact Hreach|]. split; [reflexivity|].
  exact (stored_index_matches_selected_document Toy.backend st v Hreach eq_refl).
Defined.

Lemma selection_is_never_undone_witness :
  let st := Toy.after [Toy.idle ""; Toy.click "About College" ""] in
  let inputs := [Toy.click "Send" "When?"; Toy.click "Admission Process" ""; Toy.idle ""] in
  let st' := Toy.after [Toy.idle ""; Toy.click "About College" ""; Toy.click "Send" "When?";
                        Toy.click "Admission Process" ""; Toy.idle ""] in
  reachable Toy.backend st
  /\ play Toy.backend 2 inputs st = Some st'
  /\ path_selected Toy.backend (session Toy.backend st)
  /\ path_selected Toy.backend (session Toy.backend st').
Proof.
  intros st inputs st'.
  assert (reachable Toy.backend st) as Hreach by (apply toy_reachable; vm_compute; reflexivity).
  assert (path_selected Toy.backend (session Toy.backend st)) as Hsel.
  { exists "about_college.pdf". split; [|reflexivity].
    unfold selectable_paths. simpl. apply list_elem_of_here. }
  split; [exact Hreach|]. split; [reflexivity|]. split; [exact Hsel|].
  exact (selection_is_never_undone Toy.backend 2 inputs st st' Hreach eq_refl Hsel).
Defined.

Lemma session_values_are_typed_witness :
  let st := Toy.after [Toy.idle ""; Toy.click "About College" ""; Toy.click "Send" "When?"] in
  reachable Toy.backend st
  /\ session Toy.backend st !! "pdf_path" = Some (VStr Toy.backend "about_college.pdf")
  /\ session Toy.backend st !! "db"
     = Some (VDb Toy.backend ["The college was founded in 1946."; "It has nine departments."])
  /\ session Toy.backend st !! "chat_history"
     = Some (VHistory Toy.backend
               [ {| question := "When?";
                    answer := inl "The college was founded in 1946." |} ])
  /\ values_typed Toy.backend (session Toy.backend st).
Proof.
  intros st.
  assert (reachable Toy.backend st) as Hreach by (apply toy_reachable; vm_compute; reflexivity).
  split; [exact Hreach|]. split; [reflexivity|]. split; [reflexivity|].
  split; [reflexivity|].
  exact (session_values_are_typed Toy.backend st Hreach).
Defined.

Lemma history_survives_the_session_witness :
  let first := {| question := "When?";
                  answer := inl "The college was founded in 1946." |} in
  let st := Toy.after [Toy.idle ""; Toy.click "About College" ""; Toy.click "Send" "When?"] in
  let inputs := [Toy.click "Fees Structure" ""] in
  let st' := Toy.after [Toy.idle ""; Toy.click "About College" ""; Toy.click "Send" "When?";
                        Toy.click "Fees Structure" ""] in
  reachable Toy.backend st
  /\ play Toy.backend 2 inputs st = Some st'
  /\ history_of Toy.backend (session Toy.backend st) = [first]
  /\ session Toy.backend st' !! "pdf_path" = Some (VStr Toy.backend "feesstructure.pdf")
  /\ history_of Toy.backend (session Toy.backend st)
     `prefix_of` history_of Toy.backend (session Toy.backend st').
Proof.
  intros first st inputs st'.
  assert (reachable Toy.backend st) as Hreach by (apply toy_reachable; vm_compute; reflexivity).
  split; [exact Hreach|]. split; [reflexivity|]. split; [reflexivity|].
  split; [reflexivity|].
  exact (history_survives_the_session Toy.backend 2 inputs st st' Hreach eq_refl).
Defined.

Lemma no_selection_shows_only_the_sidebar_witness :
  let st := Toy.after [Toy.idle ""] in
  let i := Toy.idle "When?" in
  reachable Toy.backend st
  /\ session Toy.backend st !! "pdf_path" = Some (VNone Toy.backend)
  /\ interact Toy.backend 2 i st
     = Some (make_state Toy.backend (<["pdf_path" := VNone Toy.backend]> (session Toy.backend st))
               (log Toy.backend st ++ [Received Toy.backend i]
                ++ page_top Toy.backend ++ sidebar_all Toy.backend)).
Proof.
  intros st i.
  assert (reachable Toy.backend st) as Hreach by (apply toy_reachable; vm_compute; reflexivity).
  assert (session Toy.backend st !! "pdf_path" = Some (VNone Toy.backend)) as Hnone
    by reflexivity.
  split; [exact Hreach|]. split; [exact Hnone|].
  refine (proj1 (no_selection_shows_only_the_sidebar Toy.backend st i
                   Hreach eq_refl eq_refl _)).
  intros (path & _ & Hpath). rewrite Hnone in Hpath. discriminate Hpath.
Defined.

Lemma only_library_errors_escape_witness :
  let st := Toy.after [Toy.idle ""; Toy.click "About College" ""] in
  let i := Toy.click "Admission Process" "" in
  let run := run_streamlit Toy.backend i (arrival Toy.backend i st) in
  reachable Toy.backend st
  /\ fst run = Halt (Exception (LibraryError "File path is not a valid file or url"))
  /\ (raised_by_library Toy.backend (LibraryError "File path is not a valid file or url")
      \/ (LibraryError "File path is not a valid file or url" = KeyError "answer"
          /\ exists chain response,
               chain_invoke Toy.backend chain (question_arg Toy.backend (typed i))
               = Ok response
               /\ response !! "answer" = None)).
Proof.
  intros st i run.
  assert (reachable Toy.backend st) as Hreach by (apply toy_reachable; vm_compute; reflexivity).
  split; [exact Hreach|]. split; [reflexivity|].
  exact (only_library_errors_escape Toy.backend st i (fst run) (snd run) Hreach
           (surjective_pairing run)).
Defined.

Lemma answering_stops_at_first_failure_witness :
  let b := ToyVariants.offline in
  let st := ToyVariants.after b [Toy.idle ""; Toy.click "About College" ""] in
  let i := Toy.click "Send" "When?" in
  let store := ["The college was founded in 1946."; "It has nine departments."] in
  reachable b st
  /\ session b st !! "db" = Some (VDb b store)
  /\ run_streamlit b i (arrival b i st)
     = (Halt (Exception (LibraryError "Connection error.")),
        make_state b (session b st)
          (log b st ++ [Received b i] ++ chat_page b (session b st)
           ++ [ Called b (call_ChatGroq b (Some "gsk") "mixtral-8x7b-32768");
                Called b (call_from_template b prompt_template);
                Called b (call_create_stuff_documents_chain b
                            "mixtral-8x7b-32768" prompt_template);
                Called b (call_as_retriever b store);
                Called b (call_create_retrieval_chain b store prompt_template);
                Called b (call_invoke b (store, prompt_template) (question_arg b "When?")) ])).
Proof.
  intros b st i store.
  assert (reachable b st) as Hreach by (apply variant_reachable; vm_compute; reflexivity).
  split; [exact Hreach|]. split; [reflexivity|].
  refine (proj1 (proj2 (proj2 (answering_stops_at_first_failure b st i store
                                 "mixtral-8x7b-32768" Hreach eq_refl eq_refl _
                                 eq_refl eq_refl))
                   prompt_template prompt_template (LibraryError "Connection error.")
                   eq_refl eq_refl eq_refl)).
  discriminate.
Defined.

Lemma history_is_shown_in_order_witness :
  let first := {| question := "When?";
                  answer := inl "The college was founded in 1946." |} in
  let second := {| question := "How much?";
                   answer := inl "The tuition fee is 90000 per year." |} in
  exists shown,
    render_history Toy.backend [first; second] (initial_state Toy.backend)
    = (Done tt, make_state Toy.backend ∅ shown)
    /\ shown !! 2 = Some (Shown Toy.backend (st_markdown (user_message Toy.backend second)))
    /\ shown !! 3 = Some (Shown Toy.backend (st_markdown (bot_message Toy.backend second))).
Proof.
  intros first second.
  destruct (history_is_shown_in_order Toy.backend [first; second] ∅ [])
    as (shown & Hrun & _ & Hat).
  exists shown. split; [exact Hrun|]. exact (Hat 1 second eq_refl).
Defined.
